(** * NAVA-AI: the mock Jetson telemetry node

    A shallow embedding of [ros2_scripts/mock_jetson_node.py] and the
    properties its specification states about it.

    The node owns two pieces of state, [count] (a Python [int]) and
    [shadow_on] (a Python [bool]).  A 20 Hz timer calls [publish_telemetry],
    which publishes a velocity, a safety margin and the shadow flag and then
    increments [count]; every message on [nav/cmd/toggle_shadow] calls
    [toggle_callback], which flips [shadow_on].

    Modelling choices.

    - Python [float] is an interface ([PyFloat]): the program is written
      once over it, so that what is proved about the control flow and the
      published messages does not depend on how floats round.  Two
      instances are given: [RealFloat] (exact real arithmetic, the reading
      the specification uses when it writes [sin(0) = 0]) and [Binary64]
      (IEEE 754 doubles, with the C library's [sin] as a parameter).  The
      conversion [int -> float] is taken to be total: CPython raises
      [OverflowError] only above about 1.8e308.

    - [rclpy] is external.  What the node does to it is recorded as a trace
      of events (messages handed to a publisher, lines sent to the logger).
      A publish call may raise; whether the k-th call of the process raises
      is the environment's choice, a [Bus].

    - Callbacks run one at a time, as under [rclpy.spin]'s single-threaded
      executor, so a run is a list of [input]s handled in order. *)

From Stdlib Require Import ZArith QArith Bool String List Lia.
From Stdlib Require Import Reals Lra.
From Stdlib Require Import Floats.
Import ListNotations.

Local Open Scope Z_scope.
Local Open Scope string_scope.

(** ** Python floats *)

Declare Scope pyfloat_scope.
Delimit Scope pyfloat_scope with py.

(** The float operations the script uses: literals, [int * float] (the
    integer is converted first), [*], [+] and [math.sin]. *)
Class PyFloat : Type := {
  float : Type;
  lit : Q -> float;
  of_int : Z -> float;
  fmul : float -> float -> float;
  fadd : float -> float -> float;
  math_sin : float -> float
}.

Arguments lit {PyFloat} q%_Q.

Infix "*" := fmul : pyfloat_scope.
Infix "+" := fadd : pyfloat_scope.

(** Exact arithmetic over the reals. *)
#[export] Instance RealFloat : PyFloat := {|
  float := R;
  lit := Q2R;
  of_int := IZR;
  fmul := Rmult;
  fadd := Rplus;
  math_sin := sin
|}.

(** IEEE 754 binary64, as CPython implements [float].  An [int] converts to
    the nearest double (ties to even); a decimal literal denotes the nearest
    double, obtained here by one correctly rounded division of two exactly
    representable integers.  [libm_sin] is the platform's [sin]. *)
Definition float_of_Z (n : Z) : PrimFloat.float :=
  SF2Prim (binary_normalize prec emax n 0 false).

Definition float_of_Q (q : Q) : PrimFloat.float :=
  PrimFloat.div (float_of_Z (Qnum q)) (float_of_Z (Zpos (Qden q))).

Definition Binary64 (libm_sin : PrimFloat.float -> PrimFloat.float) : PyFloat := {|
  float := PrimFloat.float;
  lit := float_of_Q;
  of_int := float_of_Z;
  fmul := PrimFloat.mul;
  fadd := PrimFloat.add;
  math_sin := libm_sin
|}.

(** ** ROS 2 messages *)

(** [geometry_msgs/Vector3] and [geometry_msgs/Twist].  Their constructors
    take no argument in the script; the message definitions default every
    [float64] field to [0.0]. *)
Module geometry_msgs.
Section Msgs.
Context {F : PyFloat}.

Record Vector3 : Type := { x : float; y : float; z : float }.
Record Twist : Type := { linear : Vector3; angular : Vector3 }.

Definition Vector3_new : Vector3 :=
  {| x := lit 0.0; y := lit 0.0; z := lit 0.0 |}.
Definition Twist_new : Twist :=
  {| linear := Vector3_new; angular := Vector3_new |}.

(** [msg.linear.x = v] *)
Definition set_linear_x (m : Twist) (v : float) : Twist :=
  {| linear := {| x := v; y := y (linear m); z := z (linear m) |};
     angular := angular m |}.
End Msgs.
End geometry_msgs.

Section Node.
Context {F : PyFloat}.

(** A message of one of the three types the node uses. *)
Inductive msg : Type :=
  | Twist (m : geometry_msgs.Twist)
  | Float32 (data : float)
  | Bool (data : bool).

Inductive msg_type : Type := TwistT | Float32T | BoolT.

(** ** The outside world *)

Definition exn : Type := string.

Inductive event : Type :=
  | Published (topic : string) (m : msg)
  | PublishRaised (topic : string) (m : msg) (e : exn)
  | LogInfo (text : string).

(** The k-th publish call of the process raises [e] when [bus k = Some e]
    and returns otherwise. *)
Definition Bus : Type := nat -> option exn.
Definition reliable : Bus := fun _ => None.

Definition is_publish_call (ev : event) : bool :=
  match ev with
  | Published _ _ | PublishRaised _ _ _ => true
  | LogInfo _ => false
  end.

Definition publish_calls (tr : list event) : nat :=
  length (filter is_publish_call tr).

(** ** The node object *)

Record Publisher : Type :=
  { pub_type : msg_type; pub_topic : string; pub_depth : Z }.
Record Subscription : Type :=
  { sub_type : msg_type; sub_topic : string; sub_depth : Z }.
Record Timer : Type := { timer_period_sec : float }.

Record MockJetsonNode : Type := {
  pub_vel : Publisher;
  pub_margin : Publisher;
  pub_shadow : Publisher;
  sub_toggle : Subscription;
  timer : Timer;
  count : Z;
  shadow_on : bool
}.

Definition set_count (self : MockJetsonNode) (n : Z) : MockJetsonNode :=
  {| pub_vel := pub_vel self; pub_margin := pub_margin self;
     pub_shadow := pub_shadow self; sub_toggle := sub_toggle self;
     timer := timer self; count := n; shadow_on := shadow_on self |}.

Definition set_shadow_on (self : MockJetsonNode) (b : bool) : MockJetsonNode :=
  {| pub_vel := pub_vel self; pub_margin := pub_margin self;
     pub_shadow := pub_shadow self; sub_toggle := sub_toggle self;
     timer := timer self; count := count self; shadow_on := b |}.

(** The process: the node object and everything it did so far, oldest
    event first. *)
Record World : Type := { self : MockJetsonNode; trace : list event }.

(** ** Python statements: state and exceptions *)

(** A statement either completes with a value or raises; in both cases the
    mutations made up to that point stay. *)
Inductive result (A : Type) : Type :=
  | Returned (a : A) (w : World)
  | Raised (e : exn) (w : World).
Arguments Returned {A} a w.
Arguments Raised {A} e w.

Definition M (A : Type) : Type := World -> result A.

Definition ret {A} (a : A) : M A := fun w => Returned a w.

Definition bind {A B} (c : M A) (k : A -> M B) : M B :=
  fun w => match c w with
           | Returned a w' => k a w'
           | Raised e w' => Raised e w'
           end.

Definition world_of {A} (r : result A) : World :=
  match r with Returned _ w | Raised _ w => w end.

(** What a Python call hands back: the two callbacks have no [return]
    statement, so they hand back [None]. *)
Inductive pyvalue : Type := PyNone | PyBool (b : bool).

Definition get_self : M MockJetsonNode := fun w => Returned (self w) w.

Definition put_self (s : MockJetsonNode) : M unit :=
  fun w => Returned tt {| self := s; trace := trace w |}.

Definition emit (ev : event) : M unit :=
  fun w => Returned tt {| self := self w; trace := trace w ++ [ev] |}.

(** [self.get_logger().info(text)] *)
Definition log_info (text : string) : M unit := emit (LogInfo text).
End Node.

Arguments Returned {F A} a w.
Arguments Raised {F A} e w.

Notation "x <- c ;; k" := (bind c (fun x => k))
  (at level 61, c at next level, right associativity).
Notation "c ;; k" := (bind c (fun _ => k))
  (at level 61, right associativity).

(** ** The script *)

Section Callbacks.
Context {F : PyFloat}.
Variable bus : Bus.

(** [publisher.publish(m)]: the call is recorded either way; when the bus
    refuses it the exception surfaces in the caller. *)
Definition publish (p : Publisher) (m : msg) : M unit :=
  fun w =>
    match bus (publish_calls (trace w)) with
    | None =>
        Returned tt {| self := self w;
                       trace := trace w ++ [Published (pub_topic p) m] |}
    | Some e =>
        Raised e {| self := self w;
                    trace := trace w ++ [PublishRaised (pub_topic p) m e] |}
    end.

(** [str(b)], as an f-string formats a [bool]. *)
Definition str_bool (b : bool) : string := if b then "True" else "False".

(** [MockJetsonNode.__init__]: three publishers, one subscription, the
    20 Hz timer, [count = 0], [shadow_on = False], one log line. *)
Definition __init__ : World :=
  {| self :=
       {| pub_vel := {| pub_type := TwistT; pub_topic := "nav/cmd_vel"; pub_depth := 10 |};
          pub_margin := {| pub_type := Float32T; pub_topic := "nav/margin"; pub_depth := 10 |};
          pub_shadow := {| pub_type := BoolT; pub_topic := "nav/shadow_toggle"; pub_depth := 10 |};
          sub_toggle := {| sub_type := BoolT; sub_topic := "nav/cmd/toggle_shadow"; sub_depth := 10 |};
          timer := {| timer_period_sec := lit 0.05 |};
          count := 0;
          shadow_on := false |};
     trace :=
       [LogInfo "Mock Jetson Node Started (Send data to Unity at 127.0.0.1:10000)"] |}.

(** [toggle_callback(self, msg)]: the payload is not read. *)
Definition toggle_callback (m : msg) : M pyvalue :=
  s <- get_self ;;
  put_self (set_shadow_on s (negb (shadow_on s))) ;;
  s <- get_self ;;
  log_info ("Toggling Shadow Mode via Unity: " ++ str_bool (shadow_on s)) ;;
  ret PyNone.

(** [publish_telemetry(self)] *)
Definition publish_telemetry : M pyvalue :=
  s <- get_self ;;
  let t := (of_int (count s) * lit 0.1)%py in
  let vel_msg := geometry_msgs.Twist_new in
  let vel_msg :=
    geometry_msgs.set_linear_x vel_msg
      (lit 1.0 * (lit 0.5 + lit 0.5 * math_sin t))%py in
  publish (pub_vel s) (Twist vel_msg) ;;
  let margin := lit 2.0 in
  s <- get_self ;;
  let margin := if shadow_on s then lit 0.2 else margin in
  s <- get_self ;;
  publish (pub_margin s) (Float32 margin) ;;
  s <- get_self ;;
  publish (pub_shadow s) (Bool (shadow_on s)) ;;
  s <- get_self ;;
  put_self (set_count s (count s + 1)) ;;
  ret PyNone.

(** What [rclpy.spin] hands to the node: a timer expiry or a message on
    [nav/cmd/toggle_shadow]. *)
Inductive input : Type :=
  | TimerFired
  | ToggleReceived (m : msg).

Definition dispatch (i : input) : M pyvalue :=
  match i with
  | TimerFired => publish_telemetry
  | ToggleReceived m => toggle_callback m
  end.

(** [rclpy.spin(node)]: callbacks run in arrival order, one at a time; an
    exception leaving a callback leaves [spin] too, and nothing in the
    script catches it. *)
Fixpoint spin (ins : list input) : M unit :=
  match ins with
  | [] => ret tt
  | i :: rest => dispatch i ;; spin rest
  end.

(** The [__main__] block, for the inputs the process receives. *)
Definition main (ins : list input) : result unit := spin ins __init__.

End Callbacks.

(** ** The specification's signal model and mode state

    These follow the words of the specification (sections 4.1 and 4.2), not
    the script; the theorems below compare the two. *)

Module SignalModel.
Section Model.
Context {F : PyFloat}.

Definition baseSpeed : float := lit 1.0.
Definition timeStep : float := lit 0.1.
Definition nominalMargin : float := lit 2.0.
Definition nearMissMargin : float := lit 0.2.

Definition linearVelocity (tick : Z) : float :=
  (baseSpeed * (lit 0.5 + lit 0.5 * math_sin (of_int tick * timeStep)))%py.

Definition safetyMargin (mode : bool) : float :=
  if mode then nearMissMargin else nominalMargin.

Definition shadowActive (mode : bool) : bool := mode.

Record TelemetrySample : Type :=
  { velocity : float; margin : float; shadow : bool }.

Definition sample (tick : Z) (mode : bool) : TelemetrySample :=
  {| velocity := linearVelocity tick;
     margin := safetyMargin mode;
     shadow := shadowActive mode |}.

End Model.
End SignalModel.

Module ModeState.

Definition toggle (m : bool) : bool := negb m.

End ModeState.

(** Section 4.3: each firing reads the tick and the mode, produces one
    sample and increments the tick; each toggle event flips the mode. *)
Module Scheduler.
Section Model.
Context {F : PyFloat}.

Fixpoint run (ins : list input) (tick : Z) (mode : bool)
  : list SignalModel.TelemetrySample :=
  match ins with
  | [] => []
  | TimerFired :: rest =>
      SignalModel.sample tick mode :: run rest (tick + 1) mode
  | ToggleReceived _ :: rest => run rest tick (ModeState.toggle mode)
  end.

End Model.
End Scheduler.

(** ** Reading a trace *)

Section Observations.
Context {F : PyFloat}.

(** The messages a publisher on [topic] accepted, oldest first. *)
Definition published_on (topic : string) (tr : list event) : list msg :=
  flat_map (fun ev => match ev with
                      | Published t m => if String.eqb t topic then [m] else []
                      | _ => []
                      end) tr.

Definition velocities (tr : list event) : list float :=
  flat_map (fun m => match m with
                     | Twist t => [geometry_msgs.x (geometry_msgs.linear t)]
                     | _ => []
                     end) (published_on "nav/cmd_vel" tr).

Definition margins (tr : list event) : list float :=
  flat_map (fun m => match m with Float32 d => [d] | _ => [] end)
           (published_on "nav/margin" tr).

Definition shadows (tr : list event) : list bool :=
  flat_map (fun m => match m with Bool b => [b] | _ => [] end)
           (published_on "nav/shadow_toggle" tr).

Definition log_lines (tr : list event) : list string :=
  flat_map (fun ev => match ev with LogInfo s => [s] | _ => [] end) tr.

(** Every publish call made, accepted or not. *)
Definition calls_of (tr : list event) : list (string * msg) :=
  flat_map (fun ev => match ev with
                      | Published t m | PublishRaised t m _ => [(t, m)]
                      | LogInfo _ => []
                      end) tr.

(** The three calls one firing makes on node state [s], in order, written
    with the signal model; [publish_telemetry_eq] below shows that this is
    what the script does. *)
Definition telemetry (s : MockJetsonNode) : list (string * msg) :=
  [ (pub_topic (pub_vel s),
     Twist {| geometry_msgs.linear :=
                {| geometry_msgs.x := SignalModel.linearVelocity (count s);
                   geometry_msgs.y := lit 0.0;
                   geometry_msgs.z := lit 0.0 |};
              geometry_msgs.angular := geometry_msgs.Vector3_new |});
    (pub_topic (pub_margin s), Float32 (SignalModel.safetyMargin (shadow_on s)));
    (pub_topic (pub_shadow s), Bool (SignalModel.shadowActive (shadow_on s))) ].

(** Handing [calls] to the bus one after the other, the first being the
    k-th call of the process: the events this leaves, and the exception
    that stopped it, if any. *)
Fixpoint deliver (bus : Bus) (k : nat) (calls : list (string * msg))
  : list event * option exn :=
  match calls with
  | [] => ([], None)
  | (t, m) :: rest =>
      match bus k with
      | Some e => ([PublishRaised t m e], Some e)
      | None => let (evs, r) := deliver bus (S k) rest in
                (Published t m :: evs, r)
      end
  end.

(** The events left by calls that all returned. *)
Definition accepted (calls : list (string * msg)) : list event :=
  map (fun c => Published (fst c) (snd c)) calls.

(** The outcomes of one firing from [w]: either the three calls returned and
    the counter moved, or one of them raised, nothing after it ran and the
    node object is as it was. *)
Inductive firing (w : World) : result pyvalue -> Prop :=
  | firing_returned :
      firing w (Returned PyNone
                  {| self := set_count (self w) (count (self w) + 1);
                     trace := trace w ++ accepted (telemetry (self w)) |})
  | firing_raised (done rest : list (string * msg)) (t : string) (m : msg) (e : exn) :
      telemetry (self w) = (done ++ (t, m) :: rest)%list ->
      firing w (Raised e
                  {| self := self w;
                     trace := trace w ++ accepted done ++ [PublishRaised t m e] |}).

(** The samples a trace shows: the k-th velocity, margin and shadow flag
    published, put together. *)
Fixpoint zip3 (vs ms : list float) (bs : list bool)
  : list SignalModel.TelemetrySample :=
  match vs, ms, bs with
  | v :: vs', m :: ms', b :: bs' =>
      {| SignalModel.velocity := v; SignalModel.margin := m;
         SignalModel.shadow := b |} :: zip3 vs' ms' bs'
  | _, _, _ => []
  end.

Definition samples (tr : list event) : list SignalModel.TelemetrySample :=
  zip3 (velocities tr) (margins tr) (shadows tr).

Definition fired (ins : list input) : nat :=
  length (filter (fun i => match i with TimerFired => true | _ => false end) ins).

Definition toggles (ins : list input) : nat :=
  length (filter (fun i => match i with ToggleReceived _ => true | _ => false end) ins).

(** Tick values [0, 1, ..., k-1]. *)
Definition ticks (k : nat) : list Z := map Z.of_nat (seq 0 k).

(** The publishers and the subscription are the ones [__init__] made. *)
Definition wired (s : MockJetsonNode) : Prop :=
  pub_vel s = pub_vel (self __init__) /\
  pub_margin s = pub_margin (self __init__) /\
  pub_shadow s = pub_shadow (self __init__).

End Observations.

(** ** Invariants of a run *)

Section Invariants.
Context {F : PyFloat}.

(** Between callbacks the counter is the number of velocities published so
    far, and these are the model's velocities for ticks 0, 1, 2, ... *)
Definition in_step (w : World) : Prop :=
  wired (self w) /\
  exists k : nat,
    count (self w) = Z.of_nat k /\
    velocities (trace w) = map SignalModel.linearVelocity (ticks k).

Definition velocities_in_order (w : World) : Prop :=
  exists k : nat,
    velocities (trace w) = map SignalModel.linearVelocity (ticks k).

(** The node of [__init__] at tick [n] in mode [b]. *)
Definition node_at (n : Z) (b : bool) : MockJetsonNode :=
  set_shadow_on (set_count (self __init__) n) b.

(** Every publish call of a run is one of the three calls of a firing, for
    some tick and mode. *)
Definition proper_event (ev : event) : Prop :=
  match ev with
  | Published t m | PublishRaised t m _ =>
      exists n b, In (t, m) (telemetry (node_at n b))
  | LogInfo _ => True
  end.

Definition proper_world (w : World) : Prop :=
  wired (self w) /\ Forall proper_event (trace w).

Definition proper_trace (w : World) : Prop := Forall proper_event (trace w).

(** A [Twist] with nothing but [linear.x] set. *)
Definition forward_only (m : msg) : Prop :=
  exists v : float,
    m = Twist {| geometry_msgs.linear :=
                   {| geometry_msgs.x := v;
                      geometry_msgs.y := lit 0.0;
                      geometry_msgs.z := lit 0.0 |};
                 geometry_msgs.angular :=
                   {| geometry_msgs.x := lit 0.0;
                      geometry_msgs.y := lit 0.0;
                      geometry_msgs.z := lit 0.0 |} |}.

End Invariants.

(** ** Floats as rounded reals

    What the range of the velocity needs from float arithmetic: every finite
    float has a real [value]; [+], [*], literals and [int] conversion return
    the exact result rounded by [rnd]; rounding is monotone and leaves the
    half-integers between -1 and 1 alone; [math.sin] stays within [-1, 1] and
    maps zero to zero.  IEEE 754 round-to-nearest satisfies this as long as
    nothing overflows, and so does exact arithmetic ([rnd] the identity). *)
Class Rounded (F : PyFloat) : Type := {
  value : float -> R;
  rnd : R -> R;
  rnd_monotone : forall a b : R, (a <= b)%R -> (rnd a <= rnd b)%R;
  rnd_half_integer :
    forall k : Z, -2 <= k <= 2 -> rnd (IZR k / 2) = (IZR k / 2)%R;
  value_lit : forall q : Q, value (lit q) = rnd (Q2R q);
  value_of_int : forall n : Z, value (of_int n) = rnd (IZR n);
  value_mul : forall a b : float, value (a * b)%py = rnd (value a * value b);
  value_add : forall a b : float, value (a + b)%py = rnd (value a + value b);
  sin_range : forall a : float, (-1 <= value (math_sin a) <= 1)%R;
  sin_zero : forall a : float, value a = 0%R -> value (math_sin a) = 0%R
}.

#[export] Instance RealRounded : Rounded RealFloat :=
  @Build_Rounded RealFloat
    (fun a : R => a) (fun a : R => a)
    (fun a b H => H)
    (fun k _ => eq_refl)
    (fun q => eq_refl)
    (fun n => eq_refl)
    (fun a b => eq_refl)
    (fun a b => eq_refl)
    SIN_bound
    (fun a H => eq_trans (f_equal sin H) sin_0).

(** ** Readings of the specification that the script does not meet *)

(** "velocity is about [c]": within one unit of the last digit given. *)
Definition about (c v : R) : Prop := (Rabs (v - c) <= 0.001)%R.

(** The end-to-end scenario: one firing, one toggle event, one firing. *)
Definition scenario_inputs : list (@input RealFloat) :=
  [TimerFired; ToggleReceived (Bool true); TimerFired].

Definition scenario_samples : list (@SignalModel.TelemetrySample RealFloat) :=
  samples (trace (world_of (main reliable scenario_inputs))).

Definition real_sample (v m : R) (b : bool)
  : @SignalModel.TelemetrySample RealFloat :=
  {| SignalModel.velocity := v; SignalModel.margin := m;
     SignalModel.shadow := b |}.

(** The scenario with the figures the specification gives. *)
Definition scenario_as_specified : Prop :=
  exists v1 : R,
    scenario_samples = [real_sample 0.5 2.0 false; real_sample v1 0.2 true] /\
    about 0.599 v1.

(** "[toggle()] flips the current value and returns the new value." *)
Definition toggle_returns_new_value {F : PyFloat} (m : msg) (w : World) : Prop :=
  exists w',
    toggle_callback m w = Returned (PyBool (negb (shadow_on (self w)))) w' /\
    shadow_on (self w') = negb (shadow_on (self w)).

(** "A failed publish is caught and logged, not propagated, and the next
    tick proceeds": the firing hands back normally with the tick advanced,
    and the logger has one more line for each call that raised. *)
Definition raised_calls {F : PyFloat} (tr : list event) : nat :=
  length (filter (fun ev => match ev with
                            | PublishRaised _ _ _ => true
                            | _ => false
                            end) tr).

Definition publish_failure_absorbed {F : PyFloat} (bus : Bus) (w : World) : Prop :=
  exists v w',
    publish_telemetry bus w = Returned v w' /\
    count (self w') = count (self w) + 1 /\
    (length (log_lines (trace w')) - length (log_lines (trace w)) =
     raised_calls (trace w') - raised_calls (trace w))%nat.

(** A bus on which the second publish call of the process raises. *)
Definition margin_call_fails : Bus :=
  fun k => if Nat.eqb k 1 then Some "RCLError: failed to publish" else None.

(** ** Vocabulary for whole runs *)

Section RunVocabulary.
Context {F : PyFloat}.

(** The line [__init__] logs, and the line [toggle_callback] logs when the
    new mode is [b]. *)
Definition startup_line : string :=
  "Mock Jetson Node Started (Send data to Unity at 127.0.0.1:10000)".

Definition toggle_line (b : bool) : string :=
  "Toggling Shadow Mode via Unity: " ++ str_bool b.

(** The lines of [k] toggles starting from mode [False]: True, False,
    True, ... *)
Definition toggle_log (k : nat) : list string :=
  map (fun i => toggle_line (Nat.even i)) (seq 0 k).

(** What arrived, without the payloads: [true] for a timer expiry, [false]
    for a toggle message. *)
Definition arrivals (ins : list input) : list bool :=
  map (fun i => match i with TimerFired => true | ToggleReceived _ => false end)
      ins.

(** The type a message object has. *)
Definition type_of (m : msg) : msg_type :=
  match m with
  | Twist _ => TwistT
  | Float32 _ => Float32T
  | Bool _ => BoolT
  end.

(** A publish call on [topic] with message [m] goes through one of the
    three publishers [__init__] created, and [m] has that publisher's
    message type. *)
Definition through_own_publisher (topic : string) (m : msg) : Prop :=
  exists p : Publisher,
    In p [pub_vel (self __init__); pub_margin (self __init__);
          pub_shadow (self __init__)] /\
    pub_topic p = topic /\ pub_type p = type_of m.

Definition well_addressed (ev : event) : Prop :=
  match ev with
  | Published t m | PublishRaised t m _ =>
      through_own_publisher t m /\
      t <> sub_topic (sub_toggle (self __init__))
  | LogInfo _ => True
  end.

(** The publishers, the subscription and the timer are those of
    [__init__]. *)
Definition handles_kept (s : MockJetsonNode) : Prop :=
  pub_vel s = pub_vel (self __init__) /\
  pub_margin s = pub_margin (self __init__) /\
  pub_shadow s = pub_shadow (self __init__) /\
  sub_toggle s = sub_toggle (self __init__) /\
  timer s = timer (self __init__).

(** The bus takes the first [n] publish calls of the process. *)
Definition takes_first (bus : Bus) (n : nat) : Prop :=
  forall k : nat, (k < n)%nat -> bus k = None.

End RunVocabulary.

(** * Properties *)

(** ** One callback *)

Section CallbackFacts.
Context {F : PyFloat}.
Variable bus : Bus.

Lemma publish_calls_snoc (tr : list event) (ev : event) :
  publish_calls (tr ++ [ev]) =
  (publish_calls tr + (if is_publish_call ev then 1 else 0))%nat.
Proof.
  unfold publish_calls. rewrite filter_app, length_app. simpl.
  destruct (is_publish_call ev); reflexivity.
Qed.

(** The handler flips the flag, writes one log line and hands back [None]. *)
Lemma toggle_callback_eq (m : msg) (w : World) :
  toggle_callback m w =
  Returned PyNone
    {| self := set_shadow_on (self w) (negb (shadow_on (self w)));
       trace := trace w ++
                [LogInfo ("Toggling Shadow Mode via Unity: "
                          ++ str_bool (negb (shadow_on (self w))))] |}.
Proof. reflexivity. Qed.

(** One firing makes the calls of [telemetry] until one raises; the counter
    moves only when none did. *)
Lemma publish_telemetry_eq (w : World) :
  publish_telemetry bus w =
  match deliver bus (publish_calls (trace w)) (telemetry (self w)) with
  | (evs, None) =>
      Returned PyNone
        {| self := set_count (self w) (count (self w) + 1);
           trace := trace w ++ evs |}
  | (evs, Some e) => Raised e {| self := self w; trace := trace w ++ evs |}
  end.
Proof.
  destruct w as [s tr].
  unfold publish_telemetry, bind, get_self, publish, put_self, ret.
  cbn [self trace deliver telemetry].
  destruct (bus (publish_calls tr)) as [e|] eqn:B0; [reflexivity|].
  cbn [self trace]. rewrite publish_calls_snoc. cbn [is_publish_call].
  rewrite Nat.add_1_r.
  destruct (bus (S (publish_calls tr))) as [e|] eqn:B1.
  { rewrite <- app_assoc. destruct (shadow_on s); reflexivity. }
  cbn [self trace]. rewrite !publish_calls_snoc. cbn [is_publish_call].
  rewrite !Nat.add_1_r.
  destruct (bus (S (S (publish_calls tr)))) as [e|] eqn:B2;
    cbn [self trace]; rewrite <- !app_assoc; destruct (shadow_on s); reflexivity.
Qed.

Lemma publish_telemetry_firing (w : World) :
  firing w (publish_telemetry bus w).
Proof.
  rewrite publish_telemetry_eq. cbn [telemetry deliver].
  destruct (bus (publish_calls (trace w))) as [e|].
  { eapply (firing_raised w [] _ _ _ e). reflexivity. }
  destruct (bus (S (publish_calls (trace w)))) as [e|].
  { eapply (firing_raised w [(_, _)] _ _ _ e). reflexivity. }
  destruct (bus (S (S (publish_calls (trace w))))) as [e|].
  { eapply (firing_raised w [(_, _); (_, _)] _ _ _ e). reflexivity. }
  apply firing_returned.
Qed.

(** A firing hands back [None] exactly when the bus took its three calls. *)
Lemma publish_telemetry_returns (w : World) :
  let k := publish_calls (trace w) in
  bus k = None -> bus (S k) = None -> bus (S (S k)) = None ->
  publish_telemetry bus w =
  Returned PyNone
    {| self := set_count (self w) (count (self w) + 1);
       trace := trace w ++ accepted (telemetry (self w)) |}.
Proof.
  intros k B0 B1 B2. rewrite publish_telemetry_eq. cbn [telemetry deliver].
  fold k. rewrite B0, B1, B2. reflexivity.
Qed.

End CallbackFacts.

(** ** Reading a trace piece by piece *)

Section TraceFacts.
Context {F : PyFloat}.

Lemma published_on_app (topic : string) (tr1 tr2 : list event) :
  published_on topic (tr1 ++ tr2) =
  (published_on topic tr1 ++ published_on topic tr2)%list.
Proof. apply flat_map_app. Qed.

Lemma velocities_app (tr1 tr2 : list event) :
  velocities (tr1 ++ tr2) = (velocities tr1 ++ velocities tr2)%list.
Proof. unfold velocities. rewrite published_on_app. apply flat_map_app. Qed.

Lemma margins_app (tr1 tr2 : list event) :
  margins (tr1 ++ tr2) = (margins tr1 ++ margins tr2)%list.
Proof. unfold margins. rewrite published_on_app. apply flat_map_app. Qed.

Lemma shadows_app (tr1 tr2 : list event) :
  shadows (tr1 ++ tr2) = (shadows tr1 ++ shadows tr2)%list.
Proof. unfold shadows. rewrite published_on_app. apply flat_map_app. Qed.

Lemma log_lines_app (tr1 tr2 : list event) :
  log_lines (tr1 ++ tr2) = (log_lines tr1 ++ log_lines tr2)%list.
Proof. apply flat_map_app. Qed.

Lemma calls_of_app (tr1 tr2 : list event) :
  calls_of (tr1 ++ tr2) = (calls_of tr1 ++ calls_of tr2)%list.
Proof. apply flat_map_app. Qed.

Lemma ticks_S (k : nat) : ticks (S k) = (ticks k ++ [Z.of_nat k])%list.
Proof. unfold ticks. rewrite seq_S, map_app. reflexivity. Qed.

(** The prefixes of the three calls of a firing. *)
Lemma telemetry_split (s : MockJetsonNode) done t m rest :
  telemetry s = (done ++ (t, m) :: rest)%list ->
  done = [] \/ done = firstn 1 (telemetry s) \/ done = firstn 2 (telemetry s).
Proof.
  unfold telemetry. intros H.
  destruct done as [|c1 [|c2 [|c3 done]]]; cbn in H.
  - now left.
  - right; left. now inversion H.
  - right; right. now inversion H.
  - exfalso. inversion H as [[H1 H2 H3 H4]].
    destruct done; discriminate H4.
Qed.

End TraceFacts.

(** ** Runs *)

Section RunFacts.
Context {F : PyFloat}.

Lemma wired_init : wired (self __init__).
Proof. repeat split. Qed.

Lemma wired_set_count (s : MockJetsonNode) (n : Z) :
  wired s -> wired (set_count s n).
Proof. intros H. exact H. Qed.

Lemma wired_set_shadow_on (s : MockJetsonNode) (b : bool) :
  wired s -> wired (set_shadow_on s b).
Proof. intros H. exact H. Qed.

(** With the publishers of [__init__], the calls of a firing go to the three
    well-known topics. *)
Lemma telemetry_wired (s : MockJetsonNode) :
  wired s ->
  telemetry s =
  [ ("nav/cmd_vel",
     Twist {| geometry_msgs.linear :=
                {| geometry_msgs.x := SignalModel.linearVelocity (count s);
                   geometry_msgs.y := lit 0.0;
                   geometry_msgs.z := lit 0.0 |};
              geometry_msgs.angular := geometry_msgs.Vector3_new |});
    ("nav/margin", Float32 (SignalModel.safetyMargin (shadow_on s)));
    ("nav/shadow_toggle", Bool (SignalModel.shadowActive (shadow_on s))) ].
Proof.
  intros (Hv & Hm & Hs). unfold telemetry. rewrite Hv, Hm, Hs. reflexivity.
Qed.

(** What one callback does, whatever the bus answers. *)
Lemma dispatch_cases (bus : Bus) (i : input) (w : World) :
  match dispatch bus i w with
  | Returned v w' =>
      v = PyNone /\
      match i with
      | TimerFired =>
          self w' = set_count (self w) (count (self w) + 1) /\
          trace w' = (trace w ++ accepted (telemetry (self w)))%list
      | ToggleReceived _ =>
          self w' = set_shadow_on (self w) (negb (shadow_on (self w))) /\
          trace w' =
            (trace w ++ [LogInfo ("Toggling Shadow Mode via Unity: "
                                  ++ str_bool (negb (shadow_on (self w))))])%list
      end
  | Raised e w' =>
      i = TimerFired /\ self w' = self w /\
      exists done t m rest,
        telemetry (self w) = (done ++ (t, m) :: rest)%list /\
        trace w' = (trace w ++ accepted done ++ [PublishRaised t m e])%list
  end.
Proof.
  destruct i as [|m]; cbn [dispatch].
  - destruct (publish_telemetry_firing bus w) as [|done rest t m e H].
    + repeat split.
    + repeat split. exists done, t, m, rest. now split.
  - rewrite toggle_callback_eq. repeat split.
Qed.

(** Induction over a run: [I] holds between callbacks, [J] is what is left
    of it when a callback raised and the run stopped there. *)
Lemma spin_invariant (bus : Bus) (I J : World -> Prop) :
  (forall w, I w -> J w) ->
  (forall i w, I w ->
     match dispatch bus i w with
     | Returned _ w' => I w'
     | Raised _ w' => J w'
     end) ->
  forall ins w, I w -> J (world_of (spin bus ins w)).
Proof.
  intros HIJ Hstep ins. induction ins as [|i rest IH]; intros w Hw.
  - apply HIJ, Hw.
  - cbn [spin]. unfold bind. specialize (Hstep i w Hw).
    destruct (dispatch bus i w) as [v w'|e w'].
    + apply IH, Hstep.
    + exact Hstep.
Qed.

End RunFacts.

(** ** What a firing publishes *)

Section FiringFacts.
Context {F : PyFloat}.

Lemma velocities_telemetry (s : MockJetsonNode) :
  wired s ->
  velocities (accepted (telemetry s)) = [SignalModel.linearVelocity (count s)].
Proof. intros H. rewrite (telemetry_wired s H). reflexivity. Qed.

Lemma margins_telemetry (s : MockJetsonNode) :
  wired s ->
  margins (accepted (telemetry s)) = [SignalModel.safetyMargin (shadow_on s)].
Proof. intros H. rewrite (telemetry_wired s H). reflexivity. Qed.

Lemma shadows_telemetry (s : MockJetsonNode) :
  wired s -> shadows (accepted (telemetry s)) = [shadow_on s].
Proof. intros H. rewrite (telemetry_wired s H). reflexivity. Qed.

(** A firing cut short by an exception has published a prefix of its three
    messages, never the last one. *)
Lemma interrupted_firing (s : MockJetsonNode) done t m rest e :
  wired s ->
  telemetry s = (done ++ (t, m) :: rest)%list ->
  let evs := (accepted done ++ [PublishRaised t m e])%list in
  (velocities evs = [] /\ margins evs = [] /\ shadows evs = []) \/
  (velocities evs = [SignalModel.linearVelocity (count s)] /\
   margins evs = [] /\ shadows evs = []) \/
  (velocities evs = [SignalModel.linearVelocity (count s)] /\
   margins evs = [SignalModel.safetyMargin (shadow_on s)] /\ shadows evs = []).
Proof.
  intros Hw Hsplit evs. subst evs.
  destruct (telemetry_split s done t m rest Hsplit) as [-> | [-> | ->]];
    rewrite ?(telemetry_wired s Hw).
  - left. repeat split.
  - right; left. repeat split.
  - right; right. repeat split.
Qed.

End FiringFacts.

(** ** What a run publishes *)

Section RunTraces.
Context {F : PyFloat}.

Lemma in_step_dispatch (bus : Bus) (i : input) (w : World) :
  in_step w ->
  match dispatch bus i w with
  | Returned _ w' => in_step w'
  | Raised _ w' => velocities_in_order w'
  end.
Proof.
  intros (Hw & k & Hk & Hv).
  pose proof (dispatch_cases bus i w) as H.
  destruct (dispatch bus i w) as [v w'|e w'].
  - destruct H as (_ & H). destruct i as [|m]; destruct H as (Hs & Ht).
    + split; [rewrite Hs; exact Hw|]. exists (S k). split.
      * rewrite Hs. cbn [count set_count]. lia.
      * rewrite Ht, velocities_app, Hv, velocities_telemetry by exact Hw.
        rewrite ticks_S, map_app, Hk. reflexivity.
    + split; [rewrite Hs; exact Hw|]. exists k. split.
      * rewrite Hs. exact Hk.
      * rewrite Ht, velocities_app, Hv. cbn. apply app_nil_r.
  - destruct H as (_ & _ & done & t & m & rest & Hsplit & Ht).
    destruct (interrupted_firing (self w) done t m rest e Hw Hsplit)
      as [(E & _) | [(E & _) | (E & _)]].
    + exists k. rewrite Ht, velocities_app, E, app_nil_r. exact Hv.
    + exists (S k). rewrite Ht, velocities_app, E, Hv, ticks_S, map_app, Hk.
      reflexivity.
    + exists (S k). rewrite Ht, velocities_app, E, Hv, ticks_S, map_app, Hk.
      reflexivity.
Qed.

Lemma in_step_init : in_step __init__.
Proof. split; [apply wired_init|]. exists 0%nat. split; reflexivity. Qed.

(** Whatever the bus does, the velocities a run published are the model's,
    tick by tick from 0. *)
Lemma velocities_of_run (bus : Bus) (ins : list input) :
  velocities_in_order (world_of (main bus ins)).
Proof.
  unfold main.
  apply (spin_invariant bus in_step velocities_in_order).
  - intros w (_ & k & _ & Hv). exists k. exact Hv.
  - apply in_step_dispatch.
  - apply in_step_init.
Qed.

Lemma length_ticks (k : nat) : length (ticks k) = k.
Proof. unfold ticks. now rewrite length_map, length_seq. Qed.

(** On a bus that takes every call a run never raises; it leaves the node
    and the three published sequences exactly as the scheduler model says. *)
Lemma spin_reliable (ins : list input) (w : World) :
  wired (self w) ->
  exists w',
    spin reliable ins w = Returned tt w' /\
    wired (self w') /\
    count (self w') = count (self w) + Z.of_nat (fired ins) /\
    shadow_on (self w') = Nat.iter (toggles ins) negb (shadow_on (self w)) /\
    let run := Scheduler.run ins (count (self w)) (shadow_on (self w)) in
    velocities (trace w') =
      (velocities (trace w) ++ map SignalModel.velocity run)%list /\
    margins (trace w') =
      (margins (trace w) ++ map SignalModel.margin run)%list /\
    shadows (trace w') =
      (shadows (trace w) ++ map SignalModel.shadow run)%list.
Proof.
  revert w. induction ins as [|i rest IH]; intros w Hw.
  - exists w. cbn. rewrite !app_nil_r, Z.add_0_r. repeat split; apply Hw.
  - cbn [spin]. unfold bind. destruct i as [|m]; cbn [dispatch].
    + rewrite publish_telemetry_returns by reflexivity.
      match goal with
      | |- context [spin reliable rest ?w1] =>
          destruct (IH w1 (wired_set_count (self w) _ Hw))
            as (w' & Hrun & Hw' & Hc & Hs & Hv & Hm & Hb)
      end.
      cbn [self trace count shadow_on set_count] in *.
      exists w'. split; [exact Hrun|]. split; [exact Hw'|].
      split; [rewrite Hc; change (fired (TimerFired :: rest)) with (S (fired rest)); lia|].
      split; [exact Hs|].
      cbn [Scheduler.run map].
      rewrite Hv, Hm, Hb, velocities_app, margins_app, shadows_app.
      rewrite velocities_telemetry, margins_telemetry, shadows_telemetry
        by exact Hw.
      rewrite <- !app_assoc. repeat split.
    + rewrite toggle_callback_eq.
      match goal with
      | |- context [spin reliable rest ?w1] =>
          destruct (IH w1 (wired_set_shadow_on (self w) _ Hw))
            as (w' & Hrun & Hw' & Hc & Hs & Hv & Hm & Hb)
      end.
      cbn [self trace count shadow_on set_shadow_on] in *.
      exists w'. split; [exact Hrun|]. split; [exact Hw'|].
      split; [rewrite Hc; reflexivity|].
      split; [rewrite Hs; change (toggles (ToggleReceived m :: rest)) with (S (toggles rest));
              symmetry; apply Nat.iter_succ_r|].
      cbn [Scheduler.run]. unfold ModeState.toggle.
      rewrite Hv, Hm, Hb, velocities_app, margins_app, shadows_app.
      cbn. rewrite !app_nil_r. repeat split.
Qed.

End RunTraces.

Section RunShapes.
Context {F : PyFloat}.

Lemma telemetry_node_at (s : MockJetsonNode) :
  wired s -> telemetry s = telemetry (node_at (count s) (shadow_on s)).
Proof. intros H. rewrite (telemetry_wired s H). reflexivity. Qed.

Lemma proper_accepted (s : MockJetsonNode) (calls : list (string * msg)) :
  wired s -> incl calls (telemetry s) -> Forall proper_event (accepted calls).
Proof.
  intros Hw Hincl. apply Forall_forall. intros ev Hev.
  apply in_map_iff in Hev. destruct Hev as ((t, m) & <- & Hin).
  exists (count s), (shadow_on s). rewrite <- telemetry_node_at by exact Hw.
  apply Hincl, Hin.
Qed.

Lemma proper_dispatch (bus : Bus) (i : input) (w : World) :
  proper_world w ->
  match dispatch bus i w with
  | Returned _ w' => proper_world w'
  | Raised _ w' => proper_trace w'
  end.
Proof.
  intros (Hw & Htr).
  pose proof (dispatch_cases bus i w) as H.
  destruct (dispatch bus i w) as [v w'|e w'].
  - destruct H as (_ & H). destruct i as [|m]; destruct H as (Hs & Ht).
    + split; [rewrite Hs; exact Hw|]. rewrite Ht. apply Forall_app. split.
      * exact Htr.
      * apply (proper_accepted (self w)); [exact Hw | apply incl_refl].
    + split; [rewrite Hs; exact Hw|]. rewrite Ht. apply Forall_app. split.
      * exact Htr.
      * repeat constructor.
  - destruct H as (_ & _ & done & t & m & rest & Hsplit & Ht).
    unfold proper_trace. rewrite Ht. apply Forall_app. split; [exact Htr|].
    apply Forall_app. split.
    + apply (proper_accepted (self w)); [exact Hw|]. rewrite Hsplit.
      apply incl_appl, incl_refl.
    + constructor; [|constructor].
      exists (count (self w)), (shadow_on (self w)).
      rewrite <- telemetry_node_at, Hsplit by exact Hw.
      apply in_or_app. right. now left.
Qed.

Lemma proper_run (bus : Bus) (ins : list input) :
  proper_trace (world_of (main bus ins)).
Proof.
  unfold main. apply (spin_invariant bus proper_world proper_trace).
  - intros w (_ & H). exact H.
  - apply proper_dispatch.
  - split; [apply wired_init|]. repeat constructor.
Qed.

(** What holds of every call of a firing on a topic holds of everything a
    run published there. *)
Lemma published_on_proper (topic : string) (P : msg -> Prop) (tr : list event) :
  (forall n b m, In (topic, m) (telemetry (node_at n b)) -> P m) ->
  Forall proper_event tr -> Forall P (published_on topic tr).
Proof.
  intros HP Htr. unfold published_on. apply Forall_flat_map.
  apply Forall_forall. intros ev Hev.
  pose proof (proj1 (Forall_forall _ _) Htr ev Hev) as Hp.
  destruct ev as [t m|t m e|text]; try constructor.
  destruct (String.eqb_spec t topic) as [->|_]; [|constructor].
  constructor; [|constructor]. destruct Hp as (n & b & Hin).
  exact (HP n b m Hin).
Qed.

Lemma zip3_unzip (l : list SignalModel.TelemetrySample) :
  zip3 (map SignalModel.velocity l) (map SignalModel.margin l)
       (map SignalModel.shadow l) = l.
Proof.
  induction l as [|[v m b] l IH]; [reflexivity|].
  cbn. now rewrite IH.
Qed.

(** A run on a reliable bus ends normally, with the counter at the number
    of firings and the trace showing the scheduler model's samples. *)
Lemma main_reliable (ins : list input) :
  exists w',
    main reliable ins = Returned tt w' /\
    count (self w') = Z.of_nat (fired ins) /\
    shadow_on (self w') = Nat.iter (toggles ins) negb false /\
    velocities (trace w') = map SignalModel.velocity (Scheduler.run ins 0 false) /\
    margins (trace w') = map SignalModel.margin (Scheduler.run ins 0 false) /\
    shadows (trace w') = map SignalModel.shadow (Scheduler.run ins 0 false) /\
    samples (trace w') = Scheduler.run ins 0 false.
Proof.
  destruct (spin_reliable ins __init__ wired_init)
    as (w' & Hrun & _ & Hc & Hs & Hv & Hm & Hb).
  exists w'. cbn in Hc, Hs, Hv, Hm, Hb.
  repeat split; try assumption.
  unfold samples. rewrite Hv, Hm, Hb. apply zip3_unzip.
Qed.

Lemma run_velocities (ins : list input) (tick : Z) (mode : bool) :
  map SignalModel.velocity (Scheduler.run ins tick mode) =
  map (fun i => SignalModel.linearVelocity (tick + Z.of_nat i))
      (seq 0 (fired ins)).
Proof.
  revert tick mode. induction ins as [|[|m] rest IH]; intros tick mode.
  - reflexivity.
  - change (fired (TimerFired :: rest)) with (S (fired rest)).
    cbn [Scheduler.run map seq]. rewrite IH, <- seq_shift, map_map.
    rewrite Z.add_0_r. f_equal. apply map_ext. intros i.
    f_equal. lia.
  - change (fired (ToggleReceived m :: rest)) with (fired rest).
    cbn [Scheduler.run]. apply IH.
Qed.

Lemma run_velocities_0 (ins : list input) (mode : bool) :
  map SignalModel.velocity (Scheduler.run ins 0 mode) =
  map SignalModel.linearVelocity (ticks (fired ins)).
Proof. rewrite run_velocities. unfold ticks. now rewrite map_map. Qed.

End RunShapes.

(** * The claims *)

(** C1.  The velocity published at tick [n] is
    [baseSpeed * (0.5 + 0.5 * sin(n * timeStep))] with [baseSpeed = 1.0] and
    [timeStep = 0.1].  Whatever the bus does, the velocities a run has
    published on [nav/cmd_vel] are this value for ticks 0, 1, 2, ... in
    order; when no publish call raises there is one for every firing. *)
Theorem linear_velocity_per_tick {F : PyFloat} (bus : Bus) (ins : list input) :
  let formula := fun n : Z =>
    (lit 1.0 * (lit 0.5 + lit 0.5 * math_sin (of_int n * lit 0.1)))%py in
  let published := velocities (trace (world_of (main bus ins))) in
  published = map formula (ticks (length published)) /\
  velocities (trace (world_of (main reliable ins))) =
    map formula (ticks (fired ins)) /\
  (forall n : Z, SignalModel.linearVelocity n = formula n) /\
  SignalModel.baseSpeed = lit 1.0 /\ SignalModel.timeStep = lit 0.1.
Proof.
  intros formula published. repeat split.
  - destruct (velocities_of_run bus ins) as (k & Hk).
    subst published. rewrite Hk at 1.
    now rewrite Hk, length_map, length_ticks.
  - destruct (main_reliable ins) as (w' & Hrun & _ & _ & Hv & _).
    rewrite Hrun. cbn [world_of]. rewrite Hv. apply run_velocities_0.
Qed.

Section RoundedFacts.
Context {F : PyFloat} {A : Rounded F}.

Lemma rnd_0 : rnd 0 = 0%R.
Proof.
  replace 0%R with (IZR 0 / 2)%R by lra. apply rnd_half_integer. lia.
Qed.

Lemma rnd_1 : rnd 1 = 1%R.
Proof.
  replace 1%R with (IZR 2 / 2)%R by lra. apply rnd_half_integer. lia.
Qed.

Lemma rnd_half : rnd (1 / 2) = (1 / 2)%R.
Proof. apply (rnd_half_integer 1). lia. Qed.

Lemma rnd_minus_half : rnd (-1 / 2) = (-1 / 2)%R.
Proof. apply (rnd_half_integer (-1)). lia. Qed.

Lemma value_lit_1_0 : value (lit 1.0) = 1%R.
Proof.
  rewrite value_lit. replace (Q2R 1.0) with 1%R by (unfold Q2R; cbn; lra).
  apply rnd_1.
Qed.

Lemma value_lit_0_5 : value (lit 0.5) = (1 / 2)%R.
Proof.
  rewrite value_lit.
  replace (Q2R 0.5) with (1 / 2)%R by (unfold Q2R; cbn; lra).
  apply rnd_half.
Qed.

(** The waveform applied to a sine within [-1, 1] stays within [0, 1]. *)
Lemma waveform_range (s : float) :
  (-1 <= value s <= 1)%R ->
  (0 <= value (lit 1.0 * (lit 0.5 + lit 0.5 * s))%py <= 1)%R.
Proof.
  intros Hs.
  assert (H1 : (-1 / 2 <= value (lit 0.5 * s)%py <= 1 / 2)%R).
  { rewrite value_mul, value_lit_0_5.
    rewrite <- rnd_minus_half at 1. rewrite <- rnd_half at 3.
    split; apply rnd_monotone; lra. }
  assert (H2 : (0 <= value (lit 0.5 + lit 0.5 * s)%py <= 1)%R).
  { rewrite value_add, value_lit_0_5.
    rewrite <- rnd_0 at 1. rewrite <- rnd_1 at 3.
    split; apply rnd_monotone; lra. }
  rewrite value_mul, value_lit_1_0.
  rewrite <- rnd_0 at 1. rewrite <- rnd_1 at 3.
  split; apply rnd_monotone; lra.
Qed.

Lemma linearVelocity_range (n : Z) :
  (0 <= value (SignalModel.linearVelocity n) <= 1)%R.
Proof. apply waveform_range, sin_range. Qed.

Lemma linearVelocity_0 : value (SignalModel.linearVelocity 0) = (1 / 2)%R.
Proof.
  unfold SignalModel.linearVelocity, SignalModel.baseSpeed, SignalModel.timeStep.
  assert (Ht : value (of_int 0 * lit 0.1)%py = 0%R).
  { rewrite value_mul, value_of_int, rnd_0, Rmult_0_l. apply rnd_0. }
  rewrite value_mul, value_lit_1_0, value_add, value_lit_0_5, value_mul,
    value_lit_0_5, (sin_zero _ Ht), Rmult_0_r, rnd_0, Rplus_0_r, rnd_half,
    Rmult_1_l.
  apply rnd_half.
Qed.

End RoundedFacts.



(** C3.  The published safety margin is exactly 2.0 when the mode flag is
    false and exactly 0.2 when it is true, and nothing else is ever
    published on [nav/margin]: for one firing from any node state, and for
    every run, whatever the bus does. *)
Theorem safety_margin_two_valued {F : PyFloat}
    (bus : Bus) (w : World) (ins : list input) :
  (wired (self w) ->
   exists evs,
     trace (world_of (publish_telemetry bus w)) = (trace w ++ evs)%list /\
     (published_on "nav/margin" evs = [] \/
      published_on "nav/margin" evs =
        [Float32 (if shadow_on (self w) then lit 0.2 else lit 2.0)])) /\
  Forall (fun m => m = Float32 (lit 2.0) \/ m = Float32 (lit 0.2))
         (published_on "nav/margin" (trace (world_of (main bus ins)))) /\
  margins (trace (world_of (main reliable ins))) =
    map SignalModel.margin (Scheduler.run ins 0 false) /\
  SignalModel.safetyMargin false = lit 2.0 /\
  SignalModel.safetyMargin true = lit 0.2.
Proof.
  split; [|split; [|split; [|split; reflexivity]]].
  - intros Hw.
    destruct (publish_telemetry_firing bus w) as [|done rest t m e Hsplit];
      cbn [world_of trace]; eexists; (split; [reflexivity|]).
    + right. rewrite (telemetry_wired _ Hw).
      destruct (shadow_on (self w)); reflexivity.
    + destruct (telemetry_split _ _ _ _ _ Hsplit) as [-> | [-> | ->]];
        rewrite ?(telemetry_wired _ Hw).
      * now left.
      * now left.
      * right. destruct (shadow_on (self w)); reflexivity.
  - apply published_on_proper; [|apply proper_run].
    intros n b m Hin. cbn in Hin.
    destruct Hin as [H | [H | [H | []]]]; try discriminate H.
    inversion H. destruct b; [now right | now left].
  - destruct (main_reliable ins) as (w' & Hrun & _ & _ & _ & Hm & _).
    now rewrite Hrun.
Qed.

Lemma safety_margin_two_valued_witness :
  exists evs,
    trace (world_of (publish_telemetry reliable (@__init__ RealFloat))) =
      (trace __init__ ++ evs)%list /\
    (published_on "nav/margin" evs = [] \/
     published_on "nav/margin" evs = [Float32 (lit 2.0)]).
Proof.
  apply (@safety_margin_two_valued RealFloat reliable __init__ []).
  repeat split.
Defined.

(** C4.  The flag published on [nav/shadow_toggle] by a firing is the value
    of [shadow_on] when the firing starts, which is the model's
    [shadowActive]; a firing never changes [shadow_on], whether it returns
    or raises, so in a run only [toggle_callback] does. *)
Theorem shadow_flag_is_mode {F : PyFloat}
    (bus : Bus) (w : World) (ins : list input) :
  (wired (self w) ->
   exists evs,
     trace (world_of (publish_telemetry bus w)) = (trace w ++ evs)%list /\
     match publish_telemetry bus w with
     | Returned _ _ =>
         published_on "nav/shadow_toggle" evs = [Bool (shadow_on (self w))]
     | Raised _ _ => published_on "nav/shadow_toggle" evs = []
     end) /\
  shadow_on (self (world_of (publish_telemetry bus w))) = shadow_on (self w) /\
  (forall i : input,
     shadow_on (self (world_of (dispatch bus i w))) <> shadow_on (self w) ->
     exists m, i = ToggleReceived m) /\
  shadows (trace (world_of (main reliable ins))) =
    map SignalModel.shadow (Scheduler.run ins 0 false) /\
  (forall mode : bool, SignalModel.shadowActive mode = mode).
Proof.
  assert (Hkeep :
    shadow_on (self (world_of (publish_telemetry bus w))) = shadow_on (self w)).
  { destruct (publish_telemetry_firing bus w); reflexivity. }
  split; [|split; [exact Hkeep|split; [|split; [|reflexivity]]]].
  - intros Hw.
    destruct (publish_telemetry_firing bus w) as [|done rest t m e Hsplit];
      cbn [world_of trace]; eexists; (split; [reflexivity|]).
    + rewrite (telemetry_wired _ Hw). reflexivity.
    + destruct (telemetry_split _ _ _ _ _ Hsplit) as [-> | [-> | ->]];
        rewrite ?(telemetry_wired _ Hw); reflexivity.
  - intros [|m] Hchange.
    + exfalso. apply Hchange. exact Hkeep.
    + now exists m.
  - destruct (main_reliable ins) as (w' & Hrun & _ & _ & _ & _ & Hb & _).
    now rewrite Hrun.
Qed.

Lemma shadow_flag_is_mode_witness :
  exists evs,
    trace (world_of (publish_telemetry reliable (@__init__ RealFloat))) =
      (trace __init__ ++ evs)%list /\
    published_on "nav/shadow_toggle" evs = [Bool false].
Proof.
  apply (@shadow_flag_is_mode RealFloat reliable __init__ []).
  repeat split.
Defined.

(** C10.  Every message a run publishes on [nav/cmd_vel] is a [Twist] whose
    [linear.y], [linear.z] and three angular components are 0.0: the
    message is a fresh [Twist()] with only [linear.x] assigned. *)
Theorem twist_forward_only {F : PyFloat} (bus : Bus) (ins : list input) :
  Forall forward_only
         (published_on "nav/cmd_vel" (trace (world_of (main bus ins)))) /\
  (forall v : float,
     forward_only (Twist (geometry_msgs.set_linear_x geometry_msgs.Twist_new v))).
Proof.
  split.
  - apply published_on_proper; [|apply proper_run].
    intros n b m Hin. cbn in Hin.
    destruct Hin as [H | [H | [H | []]]]; try discriminate H.
    inversion H. eexists. reflexivity.
  - intros v. exists v. reflexivity.
Qed.

(** C6.  Toggling twice restores the mode, indeed the whole node object;
    so when the mode is false and two toggle events arrive before the next
    firing, that firing publishes margin 2.0 and shadow [false], and both
    toggles were handled (each left its log line). *)
Theorem toggle_is_involution {F : PyFloat} (m1 m2 : msg) (w : World) :
  self (world_of (toggle_callback m2 (world_of (toggle_callback m1 w)))) = self w /\
  (forall m : bool, ModeState.toggle (ModeState.toggle m) = m) /\
  (wired (self w) -> shadow_on (self w) = false ->
   exists w' evs,
     spin reliable [ToggleReceived m1; ToggleReceived m2; TimerFired] w =
       Returned tt w' /\
     trace w' = (trace w ++ evs)%list /\
     margins evs = [lit 2.0] /\
     shadows evs = [false] /\
     log_lines evs = ["Toggling Shadow Mode via Unity: True";
                      "Toggling Shadow Mode via Unity: False"]).
Proof.
  split; [|split].
  - rewrite !toggle_callback_eq. cbn [world_of self shadow_on set_shadow_on].
    destruct w as [[pv pm ps st tm c b] tr]. cbn. now rewrite negb_involutive.
  - intros m. apply negb_involutive.
  - intros Hw Hb. cbn [spin]. unfold bind. cbn [dispatch].
    rewrite !toggle_callback_eq. cbn [self trace shadow_on set_shadow_on].
    rewrite publish_telemetry_returns by reflexivity.
    cbn [self trace]. rewrite Hb. cbn [negb str_bool].
    eexists. eexists. split; [reflexivity|]. cbn [trace].
    split; [rewrite <- !app_assoc; reflexivity|].
    rewrite telemetry_wired by exact Hw. cbn [shadow_on]. repeat split.
Qed.

Lemma toggle_is_involution_witness :
  exists w' evs,
    spin reliable [ToggleReceived (Bool true); ToggleReceived (Bool true);
                   TimerFired] (@__init__ RealFloat) = Returned tt w' /\
    trace w' = (trace __init__ ++ evs)%list /\
    margins evs = [lit 2.0] /\
    shadows evs = [false] /\
    log_lines evs = ["Toggling Shadow Mode via Unity: True";
                     "Toggling Shadow Mode via Unity: False"].
Proof.
  apply (@toggle_is_involution RealFloat (Bool true) (Bool true) __init__).
  - repeat split.
  - reflexivity.
Defined.

Section CounterFacts.
Context {F : PyFloat}.

Lemma count_dispatch (bus : Bus) (i : input) (w : World) :
  count (self w) <= count (self (world_of (dispatch bus i w))).
Proof.
  pose proof (dispatch_cases bus i w) as H.
  destruct (dispatch bus i w) as [v w'|e w']; cbn [world_of].
  - destruct H as (_ & H). destruct i; destruct H as (-> & _); cbn; lia.
  - destruct H as (_ & -> & _). lia.
Qed.

(** The counter never goes down in a run, on any bus. *)
Lemma count_spin (bus : Bus) (ins : list input) (w : World) :
  count (self w) <= count (self (world_of (spin bus ins w))).
Proof.
  apply (spin_invariant bus (fun w' => count (self w) <= count (self w'))
                            (fun w' => count (self w) <= count (self w'))).
  - auto.
  - intros i w1 H1. pose proof (count_dispatch bus i w1) as H2.
    destruct (dispatch bus i w1); cbn [world_of] in H2; lia.
  - lia.
Qed.

End CounterFacts.



(** C8, as stated, fails: [toggle_callback] has no [return] statement, so
    its caller gets [None], not the new mode. *)
Lemma toggle_returns_none_not_mode :
  ~ toggle_returns_new_value (Bool true) (@__init__ RealFloat).
Proof.
  intros (w' & H & _). rewrite toggle_callback_eq in H. discriminate H.
Qed.

(** C8, amended.  [toggle_callback] flips [shadow_on], whatever the
    payload, writes the new value to the log and hands [None] back to its
    caller; it touches nothing else and never raises. *)
Theorem toggle_flips_and_logs {F : PyFloat} (m : msg) (w : World) :
  exists w',
    toggle_callback m w = Returned PyNone w' /\
    shadow_on (self w') = negb (shadow_on (self w)) /\
    shadow_on (self w') = ModeState.toggle (shadow_on (self w)) /\
    self w' = set_shadow_on (self w) (negb (shadow_on (self w))) /\
    trace w' =
      (trace w ++ [LogInfo ("Toggling Shadow Mode via Unity: "
                            ++ str_bool (shadow_on (self w')))])%list.
Proof.
  eexists. split; [reflexivity|]. repeat split.
Qed.

(** C9, as stated, fails: when the call on [nav/margin] raises, the firing
    does not hand back normally. *)
Lemma publish_failure_propagates :
  ~ publish_failure_absorbed margin_call_fails (@__init__ RealFloat).
Proof.
  intros (v & w' & H & _). discriminate H.
Qed.

(** C9, amended.  [publish_telemetry] has no handler: when one of its
    publish calls raises (the [j] calls before it having returned), the
    exception leaves the callback and [spin] at once, with the inputs that
    follow unhandled.  The failed call is not made again and the calls
    after it are not made at all; nothing is logged; the counter and the
    mode are as before the firing. *)
Theorem publish_failure_stops_run {F : PyFloat}
    (bus : Bus) (w : World) (j : nat) (e : exn) (rest : list input) :
  let k := publish_calls (trace w) in
  (j < 3)%nat ->
  (forall i : nat, (i < j)%nat -> bus (k + i)%nat = None) ->
  bus (k + j)%nat = Some e ->
  exists w' evs,
    publish_telemetry bus w = Raised e w' /\
    spin bus (TimerFired :: rest) w = Raised e w' /\
    self w' = self w /\
    trace w' = (trace w ++ evs)%list /\
    log_lines evs = [] /\
    calls_of evs = firstn (S j) (telemetry (self w)) /\
    raised_calls evs = 1%nat.
Proof.
  intros k Hj Hbefore Hfail. subst k.
  set (k := publish_calls (trace w)) in *.
  assert (Hrun : forall w',
            publish_telemetry bus w = Raised e w' ->
            spin bus (TimerFired :: rest) w = Raised e w').
  { intros w' H. cbn [spin dispatch]. unfold bind. now rewrite H. }
  rewrite publish_telemetry_eq in *. cbn [telemetry deliver] in *. fold k.
  fold k in Hrun.
  destruct j as [|[|[|j]]]; [| | |lia].
  - rewrite Nat.add_0_r in Hfail. rewrite Hfail in *.
    eexists. eexists. split; [reflexivity|].
    split; [apply Hrun; reflexivity|]. repeat split.
  - pose proof (Hbefore 0%nat ltac:(lia)) as B0.
    rewrite Nat.add_0_r in B0. rewrite Nat.add_1_r in Hfail.
    rewrite B0, Hfail in *.
    eexists. eexists. split; [reflexivity|].
    split; [apply Hrun; reflexivity|]. repeat split.
  - pose proof (Hbefore 0%nat ltac:(lia)) as B0.
    pose proof (Hbefore 1%nat ltac:(lia)) as B1.
    rewrite Nat.add_0_r in B0. rewrite Nat.add_1_r in B1.
    replace (k + 2)%nat with (S (S k)) in Hfail by lia.
    rewrite B0, B1, Hfail in *.
    eexists. eexists. split; [reflexivity|].
    split; [apply Hrun; reflexivity|]. repeat split.
Qed.

Lemma publish_failure_stops_run_witness :
  exists w' evs,
    publish_telemetry margin_call_fails (@__init__ RealFloat) =
      Raised "RCLError: failed to publish" w' /\
    spin margin_call_fails [TimerFired; TimerFired] (@__init__ RealFloat) =
      Raised "RCLError: failed to publish" w' /\
    self w' = self __init__ /\
    trace w' = (trace __init__ ++ evs)%list /\
    log_lines evs = [] /\
    calls_of evs = firstn 2 (telemetry (self __init__)) /\
    raised_calls evs = 1%nat.
Proof.
  apply (@publish_failure_stops_run RealFloat margin_call_fails __init__ 1
           "RCLError: failed to publish" [TimerFired]).
  - lia.
  - intros i Hi. assert (i = 0%nat) as -> by lia. reflexivity.
  - reflexivity.
Defined.

Lemma sin_tenth : (0.0998 < sin 0.1 < 0.1)%R.
Proof.
  split; [|apply sin_lt_x; lra].
  destruct (pre_sin_bound 0.1 0) as (H & _); [lra | lra |].
  unfold sin_approx, sum_f_R0, sin_term in H. cbn in H. lra.
Qed.

Lemma real_velocity_0 : @SignalModel.linearVelocity RealFloat 0 = 0.5%R.
Proof.
  unfold SignalModel.linearVelocity, SignalModel.baseSpeed, SignalModel.timeStep.
  cbn [fmul fadd math_sin of_int lit RealFloat].
  rewrite Rmult_0_l, sin_0. lra.
Qed.

Lemma real_velocity_1 :
  @SignalModel.linearVelocity RealFloat 1 = (0.5 + 0.5 * sin 0.1)%R.
Proof.
  unfold SignalModel.linearVelocity, SignalModel.baseSpeed, SignalModel.timeStep.
  cbn [fmul fadd math_sin of_int lit RealFloat].
  rewrite (Rmult_1_l (Q2R 0.1)). lra.
Qed.

(** One firing, one toggle event, one firing, from [__init__] on a reliable
    bus: the two samples published. *)
Lemma scenario_run (m : @msg RealFloat) :
  samples (trace (world_of
     (main reliable [TimerFired; ToggleReceived m; TimerFired]))) =
  [real_sample 0.5 2.0 false; real_sample (0.5 + 0.5 * sin 0.1) 0.2 true].
Proof.
  destruct (main_reliable [TimerFired; ToggleReceived m; TimerFired])
    as (w' & Hrun & _ & _ & _ & _ & _ & Hs).
  rewrite Hrun. cbn [world_of]. rewrite Hs.
  cbn [Scheduler.run ModeState.toggle negb Z.add Pos.add].
  unfold SignalModel.sample, real_sample.
  rewrite real_velocity_0. change (0 + 1) with 1. rewrite real_velocity_1.
  reflexivity.
Qed.

(** C5, as stated, fails: the velocity of the second sample published is
    [0.5 + 0.5 * sin 0.1], which is below 0.55 and so not about 0.599. *)
Lemma scenario_velocity_not_0_599 : ~ scenario_as_specified.
Proof.
  intros (v1 & Hsamples & Habout).
  unfold scenario_samples, scenario_inputs in Hsamples.
  rewrite scenario_run in Hsamples. injection Hsamples as <-.
  unfold about in Habout. pose proof sin_tenth as (_ & Hsin).
  unfold Rabs in Habout. destruct (Rcase_abs _) in Habout; lra.
Qed.

(** C5, amended.  From the initial state ([shadow_on = False],
    [count = 0]) the sample of tick 0 is (velocity 0.5, margin 2.0, shadow
    false); after one toggle event the sample of tick 1 is (velocity
    [0.5 + 0.5 * sin 0.1], about 0.550, margin 0.2, shadow true). *)
Theorem end_to_end_scenario (m : @msg RealFloat) :
  shadow_on (self (@__init__ RealFloat)) = false /\
  count (self (@__init__ RealFloat)) = 0 /\
  exists v1 : R,
    samples (trace (world_of
       (main reliable [TimerFired; ToggleReceived m; TimerFired]))) =
      [real_sample 0.5 2.0 false; real_sample v1 0.2 true] /\
    v1 = (0.5 + 0.5 * sin 0.1)%R /\
    about 0.550 v1.
Proof.
  split; [reflexivity|]. split; [reflexivity|].
  exists (0.5 + 0.5 * sin 0.1)%R.
  split; [apply scenario_run|]. split; [reflexivity|].
  unfold about. pose proof sin_tenth as (Hlo & Hhi).
  apply Rabs_le. lra.
Qed.

(** The same scenario in IEEE 754 doubles, for a C library whose [sin]
    maps 0.0 to 0.0 and 0.1 (the double) to 0.09983341664682815 (the double
    nearest the sine): the two velocities published are 0.5 and
    0.5499167083234141. *)
Lemma scenario_velocities_binary64
    (libm_sin : PrimFloat.float -> PrimFloat.float)
    (m : @msg (Binary64 libm_sin)) :
  libm_sin 0%float = 0%float ->
  libm_sin 0x1.999999999999ap-4%float = 0x1.98eaecb8bcb2cp-4%float ->
  @velocities (Binary64 libm_sin)
    (trace (world_of (main reliable [TimerFired; ToggleReceived m; TimerFired])))
  = [0.5%float; 0x1.198eaecb8bcb3p-1%float].
Proof.
  intros H0 H1.
  destruct (@main_reliable (Binary64 libm_sin)
              [TimerFired; ToggleReceived m; TimerFired])
    as (w' & Hrun & _ & _ & Hv & _).
  rewrite Hrun. cbn [world_of]. rewrite Hv. vm_compute.
  rewrite H0, H1. vm_compute. reflexivity.
Qed.

(** * Further properties of the script *)

(** ** How a run ends *)

Section RunDecomposition.
Context {F : PyFloat}.

Lemma publish_calls_app (tr1 tr2 : list event) :
  publish_calls (tr1 ++ tr2) = (publish_calls tr1 + publish_calls tr2)%nat.
Proof. unfold publish_calls. now rewrite filter_app, length_app. Qed.

Lemma publish_calls_accepted (calls : list (string * msg)) :
  publish_calls (accepted calls) = length calls.
Proof.
  induction calls as [|c calls IH]; [reflexivity|].
  change (publish_calls (accepted (c :: calls)))
    with (S (publish_calls (accepted calls))).
  now rewrite IH.
Qed.

Lemma raised_calls_app (tr1 tr2 : list event) :
  raised_calls (tr1 ++ tr2) = (raised_calls tr1 + raised_calls tr2)%nat.
Proof. unfold raised_calls. now rewrite filter_app, length_app. Qed.

Lemma raised_calls_accepted (calls : list (string * msg)) :
  raised_calls (accepted calls) = 0%nat.
Proof. induction calls as [|c calls IH]; [reflexivity|exact IH]. Qed.

Lemma log_lines_accepted (calls : list (string * msg)) :
  log_lines (accepted calls) = [].
Proof. induction calls as [|c calls IH]; [reflexivity|exact IH]. Qed.

Lemma fired_app (ins1 ins2 : list input) :
  fired (ins1 ++ ins2) = (fired ins1 + fired ins2)%nat.
Proof. unfold fired. now rewrite filter_app, length_app. Qed.

Lemma toggles_app (ins1 ins2 : list input) :
  toggles (ins1 ++ ins2) = (toggles ins1 + toggles ins2)%nat.
Proof. unfold toggles. now rewrite filter_app, length_app. Qed.

Lemma length_run (ins : list input) (tick : Z) (mode : bool) :
  length (Scheduler.run ins tick mode) = fired ins.
Proof.
  revert tick mode. induction ins as [|[|m] rest IH]; intros tick mode.
  - reflexivity.
  - change (fired (TimerFired :: rest)) with (S (fired rest)).
    cbn [Scheduler.run length]. now rewrite IH.
  - change (fired (ToggleReceived m :: rest)) with (fired rest).
    cbn [Scheduler.run]. apply IH.
Qed.

(** A firing that hands back was answered three times by the bus. *)
Lemma publish_telemetry_returned_inv (bus : Bus) (w w1 : World) (v : pyvalue) :
  publish_telemetry bus w = Returned v w1 ->
  let k := publish_calls (trace w) in
  bus k = None /\ bus (S k) = None /\ bus (S (S k)) = None /\
  v = PyNone /\
  w1 = {| self := set_count (self w) (count (self w) + 1);
          trace := trace w ++ accepted (telemetry (self w)) |}.
Proof.
  intros H k. subst k. rewrite publish_telemetry_eq in H.
  cbn [telemetry deliver] in H.
  destruct (bus (publish_calls (trace w))); [discriminate H|].
  destruct (bus (S (publish_calls (trace w)))); [discriminate H|].
  destruct (bus (S (S (publish_calls (trace w))))); [discriminate H|].
  injection H as <- <-. repeat split.
Qed.

(** A firing that raises left the node object alone and stopped at the
    call that raised. *)
Lemma publish_telemetry_raised_inv (bus : Bus) (w w' : World) (e : exn) :
  publish_telemetry bus w = Raised e w' ->
  self w' = self w /\
  exists done t m rest,
    telemetry (self w) = (done ++ (t, m) :: rest)%list /\
    trace w' = (trace w ++ accepted done ++ [PublishRaised t m e])%list.
Proof.
  intros H. pose proof (dispatch_cases bus TimerFired w) as D.
  cbn [dispatch] in D. rewrite H in D. destruct D as (_ & Hs & D).
  split; [exact Hs | exact D].
Qed.

(** A run that ends normally on some bus is the run on the reliable bus. *)
Lemma spin_returned_reliable (bus : Bus) (ins : list input) (w w' : World) :
  spin bus ins w = Returned tt w' -> spin reliable ins w = Returned tt w'.
Proof.
  revert w. induction ins as [|i rest IH]; intros w H.
  - exact H.
  - cbn [spin] in *. unfold bind in *. destruct i as [|m]; cbn [dispatch] in *.
    + destruct (publish_telemetry bus w) as [v w1|e w1] eqn:E; [|discriminate H].
      apply publish_telemetry_returned_inv in E.
      destruct E as (_ & _ & _ & _ & ->).
      rewrite publish_telemetry_returns by reflexivity. apply IH, H.
    + rewrite toggle_callback_eq in *. apply IH, H.
Qed.

(** The trace of a run that ends normally: one log line per toggle, three
    accepted calls per firing, no failed call. *)
Lemma spin_returned_trace (bus : Bus) (ins : list input) (w w' : World) :
  spin bus ins w = Returned tt w' ->
  log_lines (trace w') =
    (log_lines (trace w) ++
     map (fun i => toggle_line (Nat.iter (S i) negb (shadow_on (self w))))
         (seq 0 (toggles ins)))%list /\
  publish_calls (trace w') = (publish_calls (trace w) + 3 * fired ins)%nat /\
  raised_calls (trace w') = raised_calls (trace w) /\
  (forall k : nat,
     (publish_calls (trace w) <= k < publish_calls (trace w) + 3 * fired ins)%nat ->
     bus k = None).
Proof.
  revert w. induction ins as [|i rest IH]; intros w H.
  - cbn in H. injection H as <-. cbn. rewrite app_nil_r.
    repeat split; lia.
  - cbn [spin] in H. unfold bind in H. destruct i as [|m]; cbn [dispatch] in H.
    + destruct (publish_telemetry bus w) as [v w1|e w1] eqn:E; [|discriminate H].
      apply publish_telemetry_returned_inv in E.
      destruct E as (B0 & B1 & B2 & _ & ->).
      destruct (IH _ H) as (Hl & Hp & Hr & Hb). clear IH.
      cbn [self trace shadow_on set_count] in *.
      change (fired (TimerFired :: rest)) with (S (fired rest)).
      change (toggles (TimerFired :: rest)) with (toggles rest).
      rewrite log_lines_app, log_lines_accepted, app_nil_r in Hl.
      rewrite publish_calls_app, publish_calls_accepted in Hp, Hb.
      rewrite raised_calls_app, raised_calls_accepted in Hr.
      cbn [telemetry length] in Hp, Hb.
      split; [exact Hl|]. split; [lia|]. split; [lia|].
      intros k Hk.
      destruct (Nat.eq_dec k (publish_calls (trace w))) as [->|N0]; [exact B0|].
      destruct (Nat.eq_dec k (S (publish_calls (trace w)))) as [->|N1]; [exact B1|].
      destruct (Nat.eq_dec k (S (S (publish_calls (trace w))))) as [->|N2]; [exact B2|].
      apply Hb. lia.
    + rewrite toggle_callback_eq in H.
      destruct (IH _ H) as (Hl & Hp & Hr & Hb). clear IH.
      cbn [self trace shadow_on set_shadow_on] in *.
      change (fired (ToggleReceived m :: rest)) with (fired rest).
      change (toggles (ToggleReceived m :: rest)) with (S (toggles rest)).
      rewrite log_lines_app in Hl. rewrite publish_calls_app in Hp, Hb.
      rewrite raised_calls_app in Hr.
      change (publish_calls [LogInfo _]) with 0%nat in Hp, Hb.
      change (raised_calls [LogInfo _]) with 0%nat in Hr.
      rewrite Nat.add_0_r in Hp, Hb, Hr.
      split; [|split; [exact Hp|split; [exact Hr|exact Hb]]].
      rewrite Hl, <- app_assoc. f_equal.
      change (seq 0 (S (toggles rest))) with (0%nat :: seq 1 (toggles rest)).
      rewrite <- seq_shift, map_cons, map_map.
      change (log_lines [LogInfo ?s] ++ ?l)%list with (s :: l).
      f_equal. apply map_ext. intros i. f_equal.
      symmetry. apply Nat.iter_succ_r.
Qed.

(** A run either handles all its inputs, or handles some of them and then
    meets a firing during which a publish call raises. *)
Lemma spin_cases (bus : Bus) (ins : list input) (w : World) :
  (exists w', spin bus ins w = Returned tt w') \/
  (exists done rest w1 e w',
     ins = (done ++ TimerFired :: rest)%list /\
     spin bus done w = Returned tt w1 /\
     publish_telemetry bus w1 = Raised e w' /\
     spin bus ins w = Raised e w').
Proof.
  revert w. induction ins as [|i rest IH]; intros w.
  - left. now exists w.
  - cbn [spin]. unfold bind.
    destruct (dispatch bus i w) as [v w1|e w1] eqn:E.
    + destruct (IH w1) as [(w' & H) | (done & rest' & w2 & e & w' & -> & Hd & Hf & H)].
      * left. now exists w'.
      * right. exists (i :: done), rest', w2, e, w'.
        split; [reflexivity|]. split; [|split; [exact Hf | exact H]].
        cbn [spin]. unfold bind. now rewrite E.
    + right. destruct i as [|m]; cbn [dispatch] in E.
      * exists [], rest, w, e, w1. repeat split. exact E.
      * rewrite toggle_callback_eq in E. discriminate E.
Qed.

End RunDecomposition.

(** ** Runs from [__init__] *)

Section RunsFromInit.
Context {F : PyFloat}.

Lemma iter_negb_false (n : nat) : Nat.iter n negb false = Nat.odd n.
Proof.
  induction n as [|n IH]; [reflexivity|].
  rewrite Nat.odd_succ, <- Nat.negb_odd, <- IH. reflexivity.
Qed.

Lemma toggle_log_iter (k : nat) :
  map (fun i => toggle_line (Nat.iter (S i) negb false)) (seq 0 k) =
  toggle_log k.
Proof.
  unfold toggle_log. apply map_ext. intros i.
  now rewrite iter_negb_false, Nat.odd_succ.
Qed.

(** Everything a run that ends normally leaves behind. *)
Lemma returned_from_init (bus : Bus) (ins : list input) (w' : World) :
  spin bus ins __init__ = Returned tt w' ->
  wired (self w') /\
  count (self w') = Z.of_nat (fired ins) /\
  shadow_on (self w') = Nat.odd (toggles ins) /\
  velocities (trace w') = map SignalModel.velocity (Scheduler.run ins 0 false) /\
  margins (trace w') = map SignalModel.margin (Scheduler.run ins 0 false) /\
  shadows (trace w') = map SignalModel.shadow (Scheduler.run ins 0 false) /\
  log_lines (trace w') = startup_line :: toggle_log (toggles ins) /\
  publish_calls (trace w') = (3 * fired ins)%nat /\
  raised_calls (trace w') = 0%nat /\
  takes_first bus (3 * fired ins).
Proof.
  intros H.
  destruct (spin_returned_trace bus ins __init__ w' H) as (Hl & Hp & Hr & Hb).
  apply spin_returned_reliable in H.
  destruct (spin_reliable ins __init__ wired_init)
    as (w2 & Hrun & Hw & Hc & Hs & Hv & Hm & Hsh).
  rewrite H in Hrun. injection Hrun as <-.
  cbn [self trace count shadow_on __init__] in Hc, Hs, Hv, Hm, Hsh.
  split; [exact Hw|]. split; [exact Hc|].
  split; [rewrite Hs; apply iter_negb_false|].
  split; [exact Hv|]. split; [exact Hm|]. split; [exact Hsh|].
  split; [rewrite Hl; cbn [shadow_on self __init__]; now rewrite toggle_log_iter|].
  split; [exact Hp|]. split; [exact Hr|].
  intros k Hk. apply Hb. change (publish_calls (trace __init__)) with 0%nat. lia.
Qed.

(** What an interrupted firing adds to the world it started in. *)
Lemma interrupted_from (bus : Bus) (w1 w' : World) (e : exn) :
  wired (self w1) ->
  publish_telemetry bus w1 = Raised e w' ->
  self w' = self w1 /\
  log_lines (trace w') = log_lines (trace w1) /\
  raised_calls (trace w') = S (raised_calls (trace w1)) /\
  (exists t m, last (trace w') (LogInfo "") = PublishRaised t m e) /\
  shadows (trace w') = shadows (trace w1) /\
  ((velocities (trace w') = velocities (trace w1) /\
    margins (trace w') = margins (trace w1)) \/
   (velocities (trace w') =
      (velocities (trace w1) ++ [SignalModel.linearVelocity (count (self w1))])%list /\
    margins (trace w') = margins (trace w1)) \/
   (velocities (trace w') =
      (velocities (trace w1) ++ [SignalModel.linearVelocity (count (self w1))])%list /\
    margins (trace w') =
      (margins (trace w1) ++ [SignalModel.safetyMargin (shadow_on (self w1))])%list)).
Proof.
  intros Hw H.
  destruct (publish_telemetry_raised_inv bus w1 w' e H)
    as (Hs & done & t & m & rest & Hsplit & Ht).
  split; [exact Hs|]. rewrite Ht.
  split.
  { rewrite !log_lines_app, log_lines_accepted. cbn. now rewrite app_nil_r. }
  split.
  { rewrite !raised_calls_app, raised_calls_accepted.
    change (raised_calls [PublishRaised t m e]) with 1%nat. lia. }
  split.
  { exists t, m. rewrite app_assoc. apply last_last. }
  rewrite velocities_app, margins_app, shadows_app.
  destruct (interrupted_firing (self w1) done t m rest e Hw Hsplit)
    as [(Ev & Em & Eb) | [(Ev & Em & Eb) | (Ev & Em & Eb)]];
    rewrite Ev, Em, Eb, ?app_nil_r.
  - split; [reflexivity|]. left. now split.
  - split; [reflexivity|]. right; left. now split.
  - split; [reflexivity|]. right; right. now split.
Qed.

(** The run on [ins] from [__init__]: it ends normally, or it handled a
    prefix normally and the next firing was interrupted. *)
Lemma main_cases (bus : Bus) (ins : list input) :
  (exists w', main bus ins = Returned tt w') \/
  (exists done rest w1 e w',
     ins = (done ++ TimerFired :: rest)%list /\
     spin bus done __init__ = Returned tt w1 /\
     publish_telemetry bus w1 = Raised e w' /\
     main bus ins = Raised e w').
Proof. apply spin_cases. Qed.

End RunsFromInit.

(** X1.  In every run, on any bus, the log is the start-up line followed by
    one line per toggle handled, reading True, False, True, ...; the mode
    at the end is [True] exactly when an odd number of toggles was handled.
    Publishing never writes to the log.  On a reliable bus every toggle
    received is handled. *)
Theorem mode_is_parity_of_toggles {F : PyFloat} (bus : Bus) (ins : list input) :
  (exists k : nat,
     (k <= toggles ins)%nat /\
     log_lines (trace (world_of (main bus ins))) = startup_line :: toggle_log k /\
     shadow_on (self (world_of (main bus ins))) = Nat.odd k) /\
  log_lines (trace (world_of (main reliable ins))) =
    startup_line :: toggle_log (toggles ins) /\
  shadow_on (self (world_of (main reliable ins))) = Nat.odd (toggles ins).
Proof.
  assert (Hany : forall b : Bus,
    (forall w', main b ins = Returned tt w' ->
       log_lines (trace w') = startup_line :: toggle_log (toggles ins) /\
       shadow_on (self w') = Nat.odd (toggles ins))).
  { intros b w' H. apply returned_from_init in H.
    destruct H as (_ & _ & Hs & _ & _ & _ & Hl & _). now split. }
  split.
  - destruct (main_cases bus ins)
      as [(w' & H) | (done & rest & w1 & e & w' & -> & Hd & Hf & H)].
    + exists (toggles ins). rewrite H. cbn [world_of].
      destruct (Hany bus w' H) as (Hl & Hs). repeat split; auto.
    + exists (toggles done). rewrite H. cbn [world_of].
      apply returned_from_init in Hd.
      destruct Hd as (Hw & _ & Hs & _ & _ & _ & Hl & _).
      destruct (interrupted_from bus w1 w' e Hw Hf) as (Es & El & _).
      rewrite toggles_app, Es, El. repeat split; try assumption. lia.
  - destruct (main_reliable ins) as (w' & H & _).
    rewrite H. cbn [world_of]. apply (Hany reliable w' H).
Qed.

(** X2.  The payload of a toggle message is never read: two input
    sequences with the same arrivals (timer expiries and toggle messages in
    the same order) drive the node through the same run, from any state
    and on any bus.  A message carrying [False] toggles like one carrying
    [True]. *)
Theorem payload_is_ignored {F : PyFloat}
    (bus : Bus) (ins1 ins2 : list input) (w : World) :
  arrivals ins1 = arrivals ins2 -> spin bus ins1 w = spin bus ins2 w.
Proof.
  revert ins2 w. induction ins1 as [|i1 rest1 IH]; intros [|i2 rest2] w H;
    try discriminate H; [reflexivity|].
  cbn [arrivals map] in H. injection H as Hi Hrest.
  cbn [spin]. unfold bind.
  destruct i1 as [|m1], i2 as [|m2]; try discriminate Hi; cbn [dispatch].
  - destruct (publish_telemetry bus w); [apply IH, Hrest | reflexivity].
  - rewrite !toggle_callback_eq. apply IH, Hrest.
Qed.

Lemma payload_is_ignored_witness :
  spin reliable [ToggleReceived (Bool true); TimerFired] (@__init__ RealFloat) =
  spin reliable [ToggleReceived (Bool false); TimerFired] __init__.
Proof.
  apply (@payload_is_ignored RealFloat reliable
           [ToggleReceived (Bool true); TimerFired]
           [ToggleReceived (Bool false); TimerFired] __init__).
  reflexivity.
Defined.

Section PublicationFacts.
Context {F : PyFloat}.

Lemma run_margin_of_shadow (ins : list input) (tick : Z) (mode : bool) :
  map SignalModel.margin (Scheduler.run ins tick mode) =
  map (fun b : bool => if b then lit 0.2 else lit 2.0)
      (map SignalModel.shadow (Scheduler.run ins tick mode)).
Proof.
  revert tick mode. induction ins as [|[|m] rest IH]; intros tick mode.
  - reflexivity.
  - cbn [Scheduler.run map]. rewrite IH. reflexivity.
  - cbn [Scheduler.run]. apply IH.
Qed.

Lemma firstn_length_app {A : Type} (l extra : list A) (n : nat) :
  n = length l -> firstn n (l ++ extra) = l.
Proof.
  intros ->. rewrite firstn_app, Nat.sub_diag, firstn_all. cbn [firstn].
  apply app_nil_r.
Qed.

End PublicationFacts.

(** X3.  In every run, on any bus, the three topics stay in step: there are
    never more shadow flags published than margins, nor more margins than
    velocities, and never more than one velocity ahead of the shadow flags.
    The counter at the end is the number of shadow flags published, that is
    the number of firings that completed; a run that ends normally has
    published one of each per firing. *)
Theorem publications_in_step {F : PyFloat} (bus : Bus) (ins : list input) :
  let w := world_of (main bus ins) in
  (length (shadows (trace w)) <= length (margins (trace w)))%nat /\
  (length (margins (trace w)) <= length (velocities (trace w)))%nat /\
  (length (velocities (trace w)) <= S (length (shadows (trace w))))%nat /\
  count (self w) = Z.of_nat (length (shadows (trace w))) /\
  (length (shadows (trace w)) <= fired ins)%nat /\
  match main bus ins with
  | Returned _ w' =>
      length (velocities (trace w')) = fired ins /\
      length (margins (trace w')) = fired ins /\
      length (shadows (trace w')) = fired ins
  | Raised _ _ => (length (shadows (trace w)) < fired ins)%nat
  end.
Proof.
  intros w. subst w.
  destruct (main_cases bus ins)
    as [(w' & H) | (done & rest & w1 & e & w' & -> & Hd & Hf & H)];
    rewrite H; cbn [world_of].
  - apply returned_from_init in H.
    destruct H as (_ & Hc & _ & Hv & Hm & Hs & _).
    rewrite Hv, Hm, Hs, !length_map, length_run. repeat split; try lia.
  - apply returned_from_init in Hd.
    destruct Hd as (Hw & Hc & _ & Hv & Hm & Hs & _).
    destruct (interrupted_from bus w1 w' e Hw Hf)
      as (Es & _ & _ & _ & Eb & Evm).
    rewrite Es, Eb, Hs, Hc, fired_app.
    change (fired (TimerFired :: rest)) with (S (fired rest)).
    destruct Evm as [(Ev & Em) | [(Ev & Em) | (Ev & Em)]];
      rewrite Ev, Em, ?length_app, Hv, Hm, !length_map, length_run;
      cbn [length]; repeat split; lia.
Qed.

(** X4.  In every run, on any bus, the margin and the shadow flag published
    by the same firing agree: the k-th margin published is 0.2 when the
    k-th shadow flag published is [True] and 2.0 when it is [False]. *)
Theorem margin_matches_shadow_flag {F : PyFloat} (bus : Bus) (ins : list input) :
  let tr := trace (world_of (main bus ins)) in
  firstn (length (shadows tr)) (margins tr) =
  map (fun b : bool => if b then lit 0.2 else lit 2.0) (shadows tr).
Proof.
  intros tr. subst tr.
  destruct (main_cases bus ins)
    as [(w' & H) | (done & rest & w1 & e & w' & -> & Hd & Hf & H)];
    rewrite H; cbn [world_of].
  - apply returned_from_init in H.
    destruct H as (_ & _ & _ & _ & Hm & Hs & _).
    rewrite Hm, Hs, run_margin_of_shadow.
    rewrite <- (app_nil_r (map _ (map _ _))) at 1.
    apply firstn_length_app. now rewrite !length_map.
  - apply returned_from_init in Hd.
    destruct Hd as (Hw & _ & _ & _ & Hm & Hs & _).
    destruct (interrupted_from bus w1 w' e Hw Hf)
      as (_ & _ & _ & _ & Eb & Evm).
    rewrite Eb, Hs.
    destruct Evm as [(_ & Em) | [(_ & Em) | (_ & Em)]];
      rewrite Em, Hm, run_margin_of_shadow.
    + rewrite <- (app_nil_r (map _ (map _ _))) at 1.
      apply firstn_length_app. now rewrite !length_map.
    + rewrite <- (app_nil_r (map _ (map _ _))) at 1.
      apply firstn_length_app. now rewrite !length_map.
    + apply firstn_length_app. now rewrite !length_map.
Qed.

Section AddressFacts.
Context {F : PyFloat}.

Lemma proper_is_well_addressed (ev : event) :
  proper_event ev -> well_addressed ev.
Proof.
  assert (Hcall : forall t m,
            (exists n b, In (t, m) (telemetry (node_at n b))) ->
            through_own_publisher t m /\
            t <> sub_topic (sub_toggle (self __init__))).
  { intros t m (n & b & Hin). cbn in Hin.
    destruct Hin as [H | [H | [H | []]]]; injection H as <- <-.
    - split; [|discriminate].
      exists (pub_vel (self __init__)). cbn. auto.
    - split; [|discriminate].
      exists (pub_margin (self __init__)). cbn. auto.
    - split; [|discriminate].
      exists (pub_shadow (self __init__)). cbn. auto. }
  destruct ev as [t m|t m e|text]; cbn; auto.
Qed.

Lemma handles_kept_dispatch (bus : Bus) (i : input) (w : World) :
  handles_kept (self w) -> handles_kept (self (world_of (dispatch bus i w))).
Proof.
  intros Hk. pose proof (dispatch_cases bus i w) as H.
  destruct (dispatch bus i w) as [v w'|e w']; cbn [world_of].
  - destruct H as (_ & H). destruct i; destruct H as (-> & _); exact Hk.
  - destruct H as (_ & -> & _). exact Hk.
Qed.

(** A bus that takes the calls a run makes cannot be told from the
    reliable one. *)
Lemma spin_on_taking_bus (bus : Bus) (ins : list input) (w : World) :
  (forall k : nat,
     (publish_calls (trace w) <= k < publish_calls (trace w) + 3 * fired ins)%nat ->
     bus k = None) ->
  spin bus ins w = spin reliable ins w.
Proof.
  revert w. induction ins as [|i rest IH]; intros w Hb; [reflexivity|].
  cbn [spin]. unfold bind. destruct i as [|m]; cbn [dispatch].
  - change (fired (TimerFired :: rest)) with (S (fired rest)) in Hb.
    rewrite (publish_telemetry_returns bus w) by (apply Hb; lia).
    rewrite (publish_telemetry_returns reliable w) by reflexivity.
    apply IH. cbn [trace]. intros k Hk.
    rewrite publish_calls_app, publish_calls_accepted in Hk.
    cbn [telemetry length] in Hk. apply Hb. lia.
  - change (fired (ToggleReceived m :: rest)) with (fired rest) in Hb.
    rewrite !toggle_callback_eq. apply IH. cbn [trace]. intros k Hk.
    rewrite publish_calls_app in Hk.
    change (publish_calls [LogInfo _]) with 0%nat in Hk.
    apply Hb. lia.
Qed.

End AddressFacts.

(** X5.  In every run, on any bus, every publish call goes through one of
    the three publishers created in [__init__], to that publisher's topic
    and with a message of that publisher's type; the node never publishes
    on [nav/cmd/toggle_shadow], the topic it listens to. *)
Theorem publishes_only_through_own_publishers {F : PyFloat}
    (bus : Bus) (ins : list input) :
  Forall well_addressed (trace (world_of (main bus ins))) /\
  published_on "nav/cmd/toggle_shadow" (trace (world_of (main bus ins))) = [].
Proof.
  assert (H : Forall well_addressed (trace (world_of (main bus ins)))).
  { eapply Forall_impl; [|apply proper_run].
    apply proper_is_well_addressed. }
  split; [exact H|].
  induction H as [|ev tr Hev _ IH]; [reflexivity|].
  unfold published_on in *. cbn [flat_map]. rewrite IH, app_nil_r.
  destruct ev as [t m|t m e|text]; try reflexivity.
  destruct (String.eqb_spec t "nav/cmd/toggle_shadow") as [->|_];
    [|reflexivity].
  destruct Hev as (_ & Hne). now contradiction Hne.
Qed.

(** X6.  A run stops at the first publish call that raises: the trace of a
    run holds at most one failed call.  A run that ends normally holds
    none; a run that ends with exception [e] holds exactly one, it is the
    last event of the trace, and it carries [e]. *)
Theorem first_failure_ends_run {F : PyFloat} (bus : Bus) (ins : list input) :
  match main bus ins with
  | Returned _ w' => raised_calls (trace w') = 0%nat
  | Raised e w' =>
      raised_calls (trace w') = 1%nat /\
      exists t m, last (trace w') (LogInfo "") = PublishRaised t m e
  end.
Proof.
  destruct (main_cases bus ins)
    as [(w' & H) | (done & rest & w1 & e & w' & -> & Hd & Hf & H)];
    rewrite H.
  - apply returned_from_init in H.
    now destruct H as (_ & _ & _ & _ & _ & _ & _ & _ & Hr & _).
  - apply returned_from_init in Hd.
    destruct Hd as (Hw & _ & _ & _ & _ & _ & _ & _ & Hr & _).
    destruct (interrupted_from bus w1 w' e Hw Hf) as (_ & _ & Er & El & _).
    split; [rewrite Er, Hr; reflexivity | exact El].
Qed.

(** X7.  A run ends normally exactly when the bus takes the first
    [3 * n] publish calls of the process, [n] being the number of timer
    expiries among the inputs; it is then the run on the reliable bus,
    whatever the bus would have done with later calls. *)
Theorem run_completes_iff_calls_taken {F : PyFloat}
    (bus : Bus) (ins : list input) :
  ((exists w', main bus ins = Returned tt w') <->
   takes_first bus (3 * fired ins)) /\
  (takes_first bus (3 * fired ins) -> main bus ins = main reliable ins).
Proof.
  assert (Hsame : takes_first bus (3 * fired ins) ->
                  main bus ins = main reliable ins).
  { intros Ht. unfold main. apply spin_on_taking_bus.
    intros k Hk. apply Ht. change (publish_calls (trace __init__)) with 0%nat in Hk.
    lia. }
  split; [|exact Hsame]. split.
  - intros (w' & H). apply returned_from_init in H.
    now destruct H as (_ & _ & _ & _ & _ & _ & _ & _ & _ & Ht).
  - intros Ht. rewrite (Hsame Ht).
    destruct (main_reliable ins) as (w' & H & _). now exists w'.
Qed.

Lemma run_completes_iff_calls_taken_witness :
  main (fun k => if Nat.eqb k 3 then Some "RCLError" else None)
       [TimerFired; ToggleReceived (Bool true)] =
  main reliable ([TimerFired; ToggleReceived (Bool true)] : list (@input RealFloat)).
Proof.
  apply (@run_completes_iff_calls_taken RealFloat).
  intros k Hk. change (fired _) with 1%nat in Hk.
  destruct k as [|[|[|k]]]; [reflexivity | reflexivity | reflexivity | lia].
Defined.

(** X8.  No callback rebinds the node's handles: in every run, on any
    bus, the three publishers, the subscription and the timer are at the
    end those [__init__] created. *)
Theorem handles_never_rebound {F : PyFloat} (bus : Bus) (ins : list input) :
  handles_kept (self (world_of (main bus ins))).
Proof.
  unfold main.
  apply (spin_invariant bus (fun w => handles_kept (self w))
                            (fun w => handles_kept (self w))).
  - auto.
  - intros i w Hk. pose proof (handles_kept_dispatch bus i w Hk) as H.
    destruct (dispatch bus i w); exact H.
  - repeat split.
Qed.

Section Smoothness.

Lemma Rabs_le_between (x y : R) : (Rabs x <= y)%R -> (- y <= x <= y)%R.
Proof. unfold Rabs. destruct (Rcase_abs x); lra. Qed.

Lemma sin_abs_le (a : R) : (Rabs (sin a) <= Rabs a)%R.
Proof.
  assert (Hpos : forall t : R, (0 < t)%R -> (Rabs (sin t) <= t)%R).
  { intros t Ht. destruct (Rle_or_lt 1 t) as [H1|H1].
    - pose proof (SIN_bound t) as Hb. apply Rabs_le. lra.
    - pose proof PI2_1 as Hpi. pose proof (sin_lt_x t Ht) as Hlt.
      pose proof (sin_ge_0 t) as Hge. apply Rabs_le. lra. }
  destruct (Rtotal_order a 0) as [Hneg | [-> | Hp]].
  - rewrite <- (Rabs_Ropp (sin a)), <- sin_neg, (Rabs_left a Hneg).
    apply Hpos. lra.
  - rewrite sin_0, Rabs_R0. lra.
  - rewrite (Rabs_right a) by lra. apply Hpos, Hp.
Qed.

Lemma sin_lipschitz (a b : R) : (Rabs (sin a - sin b) <= Rabs (a - b))%R.
Proof.
  rewrite form4, !Rabs_mult, (Rabs_right 2) by lra.
  pose proof (COS_bound ((a + b) / 2)) as Hc.
  assert (Hcos : (Rabs (cos ((a + b) / 2)) <= 1)%R) by (apply Rabs_le; lra).
  pose proof (sin_abs_le ((a - b) / 2)) as Hs.
  pose proof (Rabs_pos (sin ((a - b) / 2))) as H0.
  pose proof (Rabs_pos (cos ((a + b) / 2))) as H1.
  assert (Hhalf : (Rabs ((a - b) / 2) = Rabs (a - b) / 2)%R).
  { unfold Rdiv. rewrite Rabs_mult, (Rabs_right (/ 2)) by lra. reflexivity. }
  rewrite Hhalf in Hs. nra.
Qed.

Lemma real_velocity_step (n : Z) :
  (Rabs (@SignalModel.linearVelocity RealFloat (n + 1) -
         @SignalModel.linearVelocity RealFloat n) <= 0.05)%R.
Proof.
  unfold SignalModel.linearVelocity, SignalModel.baseSpeed, SignalModel.timeStep.
  cbn [fmul fadd math_sin of_int lit RealFloat].
  pose proof (sin_lipschitz (IZR (n + 1) * Q2R 0.1) (IZR n * Q2R 0.1)) as H.
  rewrite plus_IZR in *.
  replace ((IZR n + 1) * Q2R 0.1 - IZR n * Q2R 0.1)%R with 0.1%R in H by lra.
  rewrite (Rabs_right 0.1) in H by lra.
  apply Rabs_le. apply Rabs_le_between in H. lra.
Qed.

End Smoothness.

(** X9.  In exact arithmetic two velocities published one after the other
    differ by at most 0.05: the waveform advances 0.1 rad per firing and
    has amplitude 0.5. *)
Theorem velocity_changes_slowly
    (bus : Bus) (ins : list (@input RealFloat)) (i : nat) (a b : R) :
  let published := velocities (trace (world_of (main bus ins))) in
  nth_error published i = Some a ->
  nth_error published (S i) = Some b ->
  (Rabs (b - a) <= 0.05)%R.
Proof.
  intros published Ha Hb. subst published.
  destruct (velocities_of_run bus ins) as (k & Hk). rewrite Hk in Ha, Hb.
  unfold ticks in Ha, Hb. rewrite !nth_error_map, !nth_error_seq in Ha, Hb.
  destruct (i <? k)%nat; [|discriminate Ha].
  destruct (S i <? k)%nat; [|discriminate Hb].
  cbn [option_map Nat.add] in Ha, Hb.
  assert (Ea : a = @SignalModel.linearVelocity RealFloat (Z.of_nat i))
    by congruence.
  assert (Eb : b = @SignalModel.linearVelocity RealFloat (Z.of_nat i + 1)).
  { replace (Z.of_nat i + 1) with (Z.of_nat (S i)) by lia. congruence. }
  rewrite Ea, Eb.
  apply real_velocity_step.
Qed.

Lemma velocity_changes_slowly_witness :
  (Rabs (@SignalModel.linearVelocity RealFloat 1 -
         @SignalModel.linearVelocity RealFloat 0) <= 0.05)%R.
Proof.
  apply (velocity_changes_slowly reliable [TimerFired; TimerFired] 0);
    reflexivity.
Defined.

(** X10.  Toggling never disturbs the velocity signal: on a reliable bus
    the velocities published depend only on how many times the timer
    fired, not on the toggle messages received in between. *)
Theorem velocities_independent_of_toggles {F : PyFloat}
    (ins1 ins2 : list input) :
  fired ins1 = fired ins2 ->
  velocities (trace (world_of (main reliable ins1))) =
  velocities (trace (world_of (main reliable ins2))).
Proof.
  intros Hf.
  destruct (main_reliable ins1) as (w1 & H1 & _ & _ & Hv1 & _).
  destruct (main_reliable ins2) as (w2 & H2 & _ & _ & Hv2 & _).
  rewrite H1, H2. cbn [world_of].
  now rewrite Hv1, Hv2, !run_velocities_0, Hf.
Qed.

Lemma velocities_independent_of_toggles_witness :
  velocities (trace (world_of
    (main reliable ([TimerFired; ToggleReceived (Bool true); TimerFired]
                    : list (@input RealFloat))))) =
  velocities (trace (world_of (main reliable [TimerFired; TimerFired]))).
Proof.
  apply (@velocities_independent_of_toggles RealFloat
           [TimerFired; ToggleReceived (Bool true); TimerFired]
           [TimerFired; TimerFired]).
  reflexivity.
Defined.
